(** * Shoe size prediction: the loading and prediction pipeline of [app/app.py]

    A shallow embedding of [load_models], [predict_shoe_size] and [main]
    (its loading step, its gender block and its prediction branch), together
    with the properties of the pipeline that the specification states and
    further properties that the code shows.

    The regression model and the label encoder are unpickled objects whose
    code lives outside the repository: they are taken as handles whose
    methods are arbitrary state transformers over an opaque [World] (the state
    of everything the program does not own).  The numeric type produced by
    the model and the builtin [round] on it belong to the Python runtime
    (binary floating point in practice) and are parameters as well. *)

From Stdlib Require Import ZArith List String Ascii Bool Lia.
Import ListNotations.

Open Scope string_scope.
Open Scope Z_scope.

(** ** Python exceptions *)

(** The exception classes that matter to the handlers of the program.
    [KeyboardInterrupt], [SystemExit] and Streamlit's [StopException] (raised
    by [st.stop()]) derive from [BaseException] directly; the others derive
    from [Exception]. *)
Inductive py_class : Type :=
| ValueError
| IndexError
| TypeError
| AttributeError
| FileNotFoundError
| PermissionError
| UnpicklingError
| RuntimeError
| KeyboardInterrupt
| SystemExit
| StopException.

Record exn : Type := PyExn { exn_class : py_class; exn_args : string }.

(** [isinstance(e, ValueError)] *)
Definition is_ValueError (e : exn) : bool :=
  match exn_class e with
  | ValueError => true
  | _ => false
  end.

(** [isinstance(e, Exception)] *)
Definition is_Exception (e : exn) : bool :=
  match exn_class e with
  | KeyboardInterrupt | SystemExit | StopException => false
  | _ => true
  end.

(** [str(e)] *)
Definition str (e : exn) : string := exn_args e.

Inductive outcome (A : Type) : Type :=
| Returned (a : A)
| Raised (e : exn).
Arguments Returned {A} a.
Arguments Raised {A} e.

(** ** Observable events *)

(** What a run does to the outside: messages shown through Streamlit, file
    system accesses, and calls into the two handles. *)
Inductive event (num : Type) : Type :=
| StError (msg : string)
| StPrediction (predicted_size : num) (age height : Z) (gender : string)
| StInfoBox
| OsPathExists (path : string)
| OpenRb (path : string)
| PickleLoad (path : string)
| Transform (labels : list string)
| Predict (input_data : list (list Z)).
Arguments StError {num} msg.
Arguments StPrediction {num} predicted_size age height gender.
Arguments StInfoBox {num}.
Arguments OsPathExists {num} path.
Arguments OpenRb {num} path.
Arguments PickleLoad {num} path.
Arguments Transform {num} labels.
Arguments Predict {num} input_data.

(** ** Runs *)

Record Run (World num A : Type) : Type := mkRun {
  result : outcome A;
  final : World;
  trace : list (event num)
}.
Arguments mkRun {World num A} result final trace.
Arguments result {World num A} r.
Arguments final {World num A} r.
Arguments trace {World num A} r.

Definition Py (World num A : Type) : Type := World -> Run World num A.

Module PyMonad.

Section Ops.
Context {World num : Type}.

Definition ret {A : Type} (a : A) : Py World num A :=
  fun w => mkRun (Returned a) w [].

Definition raise {A : Type} (e : exn) : Py World num A :=
  fun w => mkRun (Raised e) w [].

Definition bind {A B : Type} (m : Py World num A) (k : A -> Py World num B)
  : Py World num B :=
  fun w =>
    match m w with
    | mkRun (Returned a) w1 t1 =>
        match k a w1 with
        | mkRun o w2 t2 => mkRun o w2 (t1 ++ t2)
        end
    | mkRun (Raised e) w1 t1 => mkRun (Raised e) w1 t1
    end.

Definition emit (ev : event num) : Py World num unit :=
  fun w => mkRun (Returned tt) w [ev].

(** [try: body except ...]: [handlers e] is the suite of the first clause
    that matches [e], or [None] when no clause matches and [e] propagates. *)
Definition try_except {A : Type} (body : Py World num A)
  (handlers : exn -> option (Py World num A)) : Py World num A :=
  fun w =>
    match body w with
    | mkRun (Returned a) w1 t1 => mkRun (Returned a) w1 t1
    | mkRun (Raised e) w1 t1 =>
        match handlers e with
        | Some h =>
            match h w1 with
            | mkRun o w2 t2 => mkRun o w2 (t1 ++ t2)
            end
        | None => mkRun (Raised e) w1 t1
        end
    end.

(** A call into foreign code: the call is recorded, then the callee runs. *)
Definition foreign {A : Type} (ev : event num)
  (f : World -> outcome A * World) : Py World num A :=
  fun w => let '(o, w') := f w in mkRun o w' [ev].

(** [xs[i]] on a sequence *)
Definition getitem {A : Type} (xs : list A) (i : nat) : Py World num A :=
  match nth_error xs i with
  | Some x => ret x
  | None => raise (PyExn IndexError "index out of bounds")
  end.

End Ops.

Declare Scope py_scope.
Delimit Scope py_scope with py.
Notation "x <- m ;; k" := (bind m (fun x => k))
  (at level 100, m at next level, right associativity) : py_scope.
Notation "m ;;; k" := (bind m (fun _ => k))
  (at level 100, right associativity) : py_scope.

End PyMonad.
Import PyMonad.
Open Scope py_scope.

(** ** The two handles *)

(** A fitted label encoder: its [classes_] attribute and its [transform]
    method, which maps a sequence of labels to a sequence of codes. *)
Record LabelEncoder (World : Type) : Type := {
  classes_ : list string;
  transform : list string -> World -> outcome (list Z) * World
}.
Arguments classes_ {World} l.
Arguments transform {World} l labels w.

(** A fitted regressor: [predict] maps a two-dimensional array of features
    (a list of rows) to one prediction per row. *)
Record Regressor (World num : Type) : Type := {
  predict : list (list Z) -> World -> outcome (list num) * World
}.
Arguments predict {World num} r input_data w.

Section Pipeline.
Context {World num : Type}.

(** The builtin [round(x, ndigits)] on the model's numeric type. *)
Variable round : num -> Z -> num.

Definition st_error (msg : string) : Py World num unit := emit (StError msg).

(** [predict_shoe_size(age, height, gender, model, label_encoder)] *)
Definition predict_shoe_size (age height : Z) (gender : string)
  (model : Regressor World num) (label_encoder : LabelEncoder World)
  : Py World num (option num) :=
  try_except
    (codes <- foreign (Transform [gender]) (transform label_encoder [gender]) ;;
     gender_encoded <- getitem codes 0 ;;
     let input_data := [[age; height; gender_encoded]] in
     predictions <- foreign (Predict input_data) (predict model input_data) ;;
     prediction <- getitem predictions 0 ;;
     ret (Some (round prediction 2)))
    (fun e =>
       if is_ValueError e then
         Some (st_error ("❌ Invalid gender value: " ++ gender
                         ++ ". Please select from available options.") ;;;
               ret None)
       else if is_Exception e then
         Some (st_error ("❌ Prediction error: " ++ str e) ;;;
               ret None)
       else None).

End Pipeline.

(** ** The loader *)

(** The part of the environment that [load_models] reads: [os.path.exists],
    [open(path, 'rb')] (the bytes of the file, or the [OSError] it raises)
    and [pickle.load] on those bytes. *)
Record Storage (Obj : Type) : Type := {
  path_exists : string -> bool;
  open_rb : string -> outcome string;
  pickle_load : string -> outcome Obj
}.
Arguments path_exists {Obj} s path.
Arguments open_rb {Obj} s path.
Arguments pickle_load {Obj} s data.

Section Loader.
Context {World num Obj : Type}.

Definition lift {A : Type} (o : outcome A) : Py World num A :=
  match o with
  | Returned a => ret a
  | Raised e => raise e
  end.

(** [st.stop()] halts the script by raising Streamlit's [StopException]. *)
Definition st_stop {A : Type} : Py World num A :=
  raise (PyExn StopException "").

Definition os_path_exists (env : Storage Obj) (path : string)
  : Py World num bool :=
  emit (OsPathExists path) ;;; ret (path_exists env path).

(** [with open(path, 'rb') as f: obj = pickle.load(f)] *)
Definition open_and_unpickle (env : Storage Obj) (path : string)
  : Py World num Obj :=
  emit (OpenRb path) ;;;
  f <- lift (open_rb env path) ;;
  emit (PickleLoad path) ;;;
  lift (pickle_load env f).

Definition model_path : string := "assets/model.pkl".
Definition encoder_path : string := "assets/label_encoder.pkl".

Definition assets_missing_msg : string :=
  "❌ Assets folder not found! Please create an 'assets/' folder with the required model files.".
Definition model_missing_msg : string :=
  "❌ model.pkl not found in assets/ folder!".
Definition encoder_missing_msg : string :=
  "❌ label_encoder.pkl not found in assets/ folder!".
Definition ensure_both_msg : string :=
  "Please ensure both 'model.pkl' and 'label_encoder.pkl' are in the 'assets/' folder".

(** The body of [load_models], without the [@st.cache_resource] decorator. *)
Definition load_models_body (env : Storage Obj) : Py World num (Obj * Obj) :=
  try_except
    (assets <- os_path_exists env "assets" ;;
     (if negb assets then st_error assets_missing_msg ;;; st_stop
      else ret tt) ;;;
     model_found <- os_path_exists env model_path ;;
     (if negb model_found then st_error model_missing_msg ;;; st_stop
      else ret tt) ;;;
     model <- open_and_unpickle env model_path ;;
     encoder_found <- os_path_exists env encoder_path ;;
     (if negb encoder_found then st_error encoder_missing_msg ;;; st_stop
      else ret tt) ;;;
     label_encoder <- open_and_unpickle env encoder_path ;;
     ret (model, label_encoder))
    (fun e =>
       if is_Exception e then
         Some (st_error ("❌ Error loading model files: " ++ str e) ;;;
               st_error ensure_both_msg ;;;
               st_stop)
       else None).

(** [@st.cache_resource] on a function without arguments: the first call
    that returns stores its value in the process-wide cache; while the cache
    holds a value, a call returns it without running the function.  A call
    that raises stores nothing. *)
Definition cache_resource {A : Type} (f : Py World num A)
  (cache : option A) (w : World) : Run World num A * option A :=
  match cache with
  | Some v => (mkRun (Returned v) w [], cache)
  | None =>
      let r := f w in
      (r, match result r with
          | Returned v => Some v
          | Raised _ => None
          end)
  end.

(** [load_models()], as the program calls it. *)
Definition load_models (env : Storage Obj) (cache : option (Obj * Obj))
  (w : World) : Run World num (Obj * Obj) * option (Obj * Obj) :=
  cache_resource (load_models_body env) cache w.

(** A process lifetime: successive calls of [load_models()], each seeing the
    storage as it is at that moment.  Returns the result of every call and
    the events of all of them, in order. *)
Fixpoint load_models_calls (envs : list (Storage Obj))
  (cache : option (Obj * Obj)) (w : World)
  : list (outcome (Obj * Obj)) * list (event num) :=
  match envs with
  | [] => ([], [])
  | env :: rest =>
      let '(r, cache') := load_models env cache w in
      let '(rs, evs) := load_models_calls rest cache' (final r) in
      (result r :: rs, (trace r ++ evs)%list)
  end.

(** The events of a load that goes through. *)
Definition full_load_trace : list (event num) :=
  [OsPathExists "assets";
   OsPathExists model_path; OpenRb model_path; PickleLoad model_path;
   OsPathExists encoder_path; OpenRb encoder_path; PickleLoad encoder_path].

(** Both artifacts are present and deserialize to the two handles. *)
Definition loads_from (env : Storage Obj) (handles : Obj * Obj) : Prop :=
  path_exists env "assets" = true /\
  path_exists env model_path = true /\
  path_exists env encoder_path = true /\
  exists model_bytes encoder_bytes,
    open_rb env model_path = Returned model_bytes /\
    pickle_load env model_bytes = Returned (fst handles) /\
    open_rb env encoder_path = Returned encoder_bytes /\
    pickle_load env encoder_bytes = Returned (snd handles).

End Loader.

(** ** The prediction branch of [main] *)

Section Main.
Context {World num : Type}.
Variable round : num -> Z -> num.

Definition age_range_msg : string :=
  "❌ Please enter an age between 1 and 100 years".
Definition height_range_msg : string :=
  "❌ Please enter a height between 50 and 250 cm".
Definition gender_missing_msg : string :=
  "❌ Please select a gender".

(** Truth value of [gender], which is a string or [None]. *)
Definition truthy (gender : option string) : bool :=
  match gender with
  | None => false
  | Some g => negb (g =? "")%string
  end.

(** [if predict_button: ...] in [main], on the values the widgets returned.
    [gender] is what the select box gave: one of the encoder's classes,
    [None] when there are none, or the fallback ["Unknown"]. *)
Definition main_predict (predict_button : bool) (age height : Z)
  (gender : option string)
  (model : Regressor World num) (label_encoder : LabelEncoder World)
  : Py World num unit :=
  if predict_button then
    if (age <? 1) || (age >? 100) then
      st_error age_range_msg
    else if (height <? 50) || (height >? 250) then
      st_error height_range_msg
    else if negb (truthy gender) then
      st_error gender_missing_msg
    else
      let g := match gender with Some g => g | None => "" end in
      predicted_size <- predict_shoe_size round age height g
                          model label_encoder ;;
      match predicted_size with
      | Some size =>
          emit (StPrediction size age height g) ;;;
          emit StInfoBox
      | None => ret tt
      end
  else ret tt.

End Main.

(** ** What is assumed of the handles *)

(** The contract of a fitted label encoder on a single label: a label among
    [classes_] gets one integer code, any other label makes [transform] raise
    [ValueError]. *)
Class FittedEncoder {World : Type} (enc : LabelEncoder World) : Prop := {
  transform_known : forall g w,
    In g (classes_ enc) ->
    exists code w', transform enc [g] w = (Returned [code], w');
  transform_unseen : forall g w,
    ~ In g (classes_ enc) ->
    exists msg w', transform enc [g] w = (Raised (PyExn ValueError msg), w')
}.

(** A regressor that answers every single row of three features with one
    prediction. *)
Class AnsweringRegressor {World num : Type} (model : Regressor World num)
  : Prop := {
  predict_answers : forall a h c w,
    exists y w', predict model [[a; h; c]] w = (Returned [y], w')
}.

(** The handles raise nothing outside the [Exception] hierarchy. *)
Definition raises_only_Exception {World A B : Type}
  (f : A -> World -> outcome B * World) : Prop :=
  forall a w e, fst (f a w) = Raised e -> is_Exception e = true.

(** What a handle method gives back does not depend on the hidden state. *)
Definition deterministic {World A B : Type}
  (f : A -> World -> outcome B * World) : Prop :=
  forall a w w', fst (f a w) = fst (f a w').

(** The ways in which a prediction call fails: the encoder raises or gives
    no code, or the model raises or gives no prediction. *)
Inductive call_fails {World num : Type} (age height : Z) (gender : string)
  (model : Regressor World num) (enc : LabelEncoder World) (w : World)
  : Prop :=
| encoding_raises (e : exn) (w1 : World) :
    transform enc [gender] w = (Raised e, w1) ->
    is_Exception e = true ->
    call_fails age height gender model enc w
| encoding_empty (w1 : World) :
    transform enc [gender] w = (Returned [], w1) ->
    call_fails age height gender model enc w
| inference_raises (code : Z) (rest : list Z) (e : exn) (w1 w2 : World) :
    transform enc [gender] w = (Returned (code :: rest), w1) ->
    predict model [[age; height; code]] w1 = (Raised e, w2) ->
    is_Exception e = true ->
    call_fails age height gender model enc w
| inference_empty (code : Z) (rest : list Z) (w1 w2 : World) :
    transform enc [gender] w = (Returned (code :: rest), w1) ->
    predict model [[age; height; code]] w1 = (Returned [], w2) ->
    call_fails age height gender model enc w.

(** Events that are calls into one of the handles. *)
Definition is_handle_call {num : Type} (ev : event num) : bool :=
  match ev with
  | Transform _ | Predict _ => true
  | _ => false
  end.

(** Events that touch the file at [path]. *)
Definition touches {num : Type} (path : string) (ev : event num) : bool :=
  match ev with
  | OsPathExists p | OpenRb p | PickleLoad p => (p =? path)%string
  | _ => false
  end.

Definition is_open_of {num : Type} (path : string) (ev : event num) : bool :=
  match ev with
  | OpenRb p => (p =? path)%string
  | _ => false
  end.

Definition is_unpickle_of {num : Type} (path : string) (ev : event num)
  : bool :=
  match ev with
  | PickleLoad p => (p =? path)%string
  | _ => false
  end.

Definition count {A : Type} (p : A -> bool) (l : list A) : nat :=
  List.length (List.filter p l).

(** ** Concrete handles and storage *)

Module Fixtures.

(** Numbers with four decimal places, held as an integer count of
    ten-thousandths, and [round] on them (ties go to the even neighbour, as
    the builtin does). *)
Definition round_half_even (x unit : Z) : Z :=
  let q := x / unit in
  let r := x mod unit in
  if 2 * r <? unit then q * unit
  else if unit <? 2 * r then (q + 1) * unit
  else if Z.even q then q * unit
  else (q + 1) * unit.

Definition round_fixed (x ndigits : Z) : Z :=
  if 4 <=? ndigits then x else round_half_even x (10 ^ (4 - ndigits)).

(** A label encoder behaving as scikit-learn's [LabelEncoder]: the code of a
    label is its position in [classes_]; an unseen label raises
    [ValueError]. *)
Fixpoint index_of (label : string) (classes : list string) : option Z :=
  match classes with
  | [] => None
  | c :: cs =>
      if (c =? label)%string then Some 0
      else option_map Z.succ (index_of label cs)
  end.

Fixpoint encode_all (classes labels : list string) : option (list Z) :=
  match labels with
  | [] => Some []
  | l :: ls =>
      match index_of l classes, encode_all classes ls with
      | Some c, Some cs => Some (c :: cs)
      | _, _ => None
      end
  end.

Definition sklearn_encoder {World : Type} (classes : list string)
  : LabelEncoder World :=
  {| classes_ := classes;
     transform := fun labels w =>
       (match encode_all classes labels with
        | Some codes => Returned codes
        | None => Raised (PyExn ValueError
                            "y contains previously unseen labels")
        end, w) |}.

(** A linear model on three features, in ten-thousandths; a row of another
    width raises [ValueError], as scikit-learn's estimators do. *)
Definition linear_row (row : list Z) : option Z :=
  match row with
  | [age; height; code] => Some (1234 + 15 * age + 480 * height + 7005 * code)
  | _ => None
  end.

Fixpoint linear_rows (X : list (list Z)) : option (list Z) :=
  match X with
  | [] => Some []
  | row :: rows =>
      match linear_row row, linear_rows rows with
      | Some y, Some ys => Some (y :: ys)
      | _, _ => None
      end
  end.

Definition linear_model {World : Type} : Regressor World Z :=
  {| predict := fun X w =>
       (match linear_rows X with
        | Some ys => Returned ys
        | None => Raised (PyExn ValueError "X has a wrong number of features")
        end, w) |}.

(** A model whose [predict] raises the given exception. *)
Definition raising_model {World : Type} (e : exn) : Regressor World Z :=
  {| predict := fun _ w => (Raised e, w) |}.

(** A model with hidden state: each call answers with the number of calls
    made before it (as a whole number of units). *)
Definition counting_model : Regressor Z Z :=
  {| predict := fun X w =>
       (Returned (List.map (fun _ => 10000 * w) X), w + 1) |}.

Definition genders : list string := ["Female"; "Male"].

(** Storage given by its directories and its files; unpickling fails on an
    empty file and otherwise yields the bytes themselves. *)
Fixpoint lookup_file (path : string) (files : list (string * string))
  : option string :=
  match files with
  | [] => None
  | (p, data) :: rest =>
      if (p =? path)%string then Some data else lookup_file path rest
  end.

Definition disk (dirs : list string) (files : list (string * string))
  : Storage string :=
  {| path_exists := fun p =>
       existsb (String.eqb p) dirs
       || match lookup_file p files with Some _ => true | None => false end;
     open_rb := fun p =>
       match lookup_file p files with
       | Some data => Returned data
       | None => Raised (PyExn FileNotFoundError p)
       end;
     pickle_load := fun data =>
       if (data =? "")%string then
         Raised (PyExn UnpicklingError "Ran out of input")
       else Returned data |}.

Definition full_disk : Storage string :=
  disk ["assets"]
       [("assets/model.pkl", "MODEL"); ("assets/label_encoder.pkl", "ENCODER")].

Definition disk_without_model : Storage string :=
  disk ["assets"] [("assets/label_encoder.pkl", "ENCODER")].

Definition empty_disk : Storage string := disk [] [].

End Fixtures.

(** ** The script as a whole *)

(** An unpickled object, seen through the three attributes the script uses:
    the methods [predict] and [transform] and the attribute [classes_].  A
    method that the object lacks is one that raises [AttributeError]; a
    missing [classes_] raises it when read. *)
Record PyObject (World num : Type) : Type := {
  attr_predict : list (list Z) -> World -> outcome (list num) * World;
  attr_transform : list string -> World -> outcome (list Z) * World;
  attr_classes_ : outcome (list string)
}.
Arguments attr_predict {World num} p input_data w.
Arguments attr_transform {World num} p labels w.
Arguments attr_classes_ {World num} p.

(** What the widgets of one script run give back: the two number inputs, the
    position chosen in the select box and whether the button was pressed. *)
Record Widgets : Type := {
  ui_age : Z;
  ui_height : Z;
  ui_gender_choice : nat;
  ui_button : bool
}.

Section Script.
Context {World num : Type}.
Variable round : num -> Z -> num.

Definition as_model (o : PyObject World num) : Regressor World num :=
  {| predict := attr_predict o |}.

Definition as_encoder (o : PyObject World num) : LabelEncoder World :=
  {| classes_ := match attr_classes_ o with
                 | Returned labels => labels
                 | Raised _ => []
                 end;
     transform := attr_transform o |}.

(** [st.selectbox(label, options=...)]: the option at the chosen position,
    [None] when there is none. *)
Definition selectbox (options : list string) (choice : nat) : option string :=
  nth_error options choice.

(** The gender block of [main]: the options are read off the encoder; when
    that fails the gender is ["Unknown"]. *)
Definition main_gender (classes_attr : outcome (list string)) (choice : nat)
  : Py World num (option string) :=
  try_except
    (gender_options <- lift classes_attr ;;
     ret (selectbox gender_options choice))
    (fun e =>
       if is_Exception e then
         Some (st_error ("Error loading gender options: " ++ str e) ;;;
               ret (Some "Unknown"))
       else None).

(** [main] once the handles are there: the gender block, then the button. *)
Definition main_body (model label_encoder : PyObject World num)
  (ui : Widgets) : Py World num unit :=
  gender <- main_gender (attr_classes_ label_encoder) (ui_gender_choice ui) ;;
  main_predict round (ui_button ui) (ui_age ui) (ui_height ui) gender
    (as_model model) (as_encoder label_encoder).

(** One run of the script: [main()].  The cache of [load_models] outlives
    the run. *)
Definition main (env : Storage (PyObject World num))
  (cache : option (PyObject World num * PyObject World num))
  (ui : Widgets) (w : World)
  : Run World num unit * option (PyObject World num * PyObject World num) :=
  let '(loaded, cache') := load_models env cache w in
  (match loaded with
   | mkRun (Returned (model, label_encoder)) w1 t1 =>
       match main_body model label_encoder ui w1 with
       | mkRun o w2 t2 => mkRun o w2 (t1 ++ t2)
       end
   | mkRun (Raised e) w1 t1 => mkRun (Raised e) w1 t1
   end, cache').

End Script.

(** ** Failures of the storage *)

Section StorageFailures.
Context {Obj : Type}.

(** The model artifact is there and deserializes to [model]. *)
Definition model_loads (env : Storage Obj) (model : Obj) : Prop :=
  path_exists env "assets" = true /\
  path_exists env model_path = true /\
  exists model_bytes,
    open_rb env model_path = Returned model_bytes /\
    pickle_load env model_bytes = Returned model.

(** An artifact that exists cannot be opened or deserialized: [open] or
    [pickle.load] raises [e]. *)
Inductive artifact_unreadable (env : Storage Obj) (e : exn) : Prop :=
| model_open_raises :
    path_exists env "assets" = true ->
    path_exists env model_path = true ->
    open_rb env model_path = Raised e ->
    artifact_unreadable env e
| model_unpickle_raises (model_bytes : string) :
    path_exists env "assets" = true ->
    path_exists env model_path = true ->
    open_rb env model_path = Returned model_bytes ->
    pickle_load env model_bytes = Raised e ->
    artifact_unreadable env e
| encoder_open_raises (model : Obj) :
    model_loads env model ->
    path_exists env encoder_path = true ->
    open_rb env encoder_path = Raised e ->
    artifact_unreadable env e
| encoder_unpickle_raises (model : Obj) (encoder_bytes : string) :
    model_loads env model ->
    path_exists env encoder_path = true ->
    open_rb env encoder_path = Returned encoder_bytes ->
    pickle_load env encoder_bytes = Raised e ->
    artifact_unreadable env e.

(** The storage raises nothing outside the [Exception] hierarchy. *)
Definition storage_raises_only_Exception (env : Storage Obj) : Prop :=
  (forall path e, open_rb env path = Raised e -> is_Exception e = true) /\
  (forall data e, pickle_load env data = Raised e -> is_Exception e = true).

End StorageFailures.

(** One of the two handles raises [e] during a prediction call. *)
Inductive handle_raises {World num : Type} (age height : Z) (gender : string)
  (model : Regressor World num) (enc : LabelEncoder World) (w : World)
  (e : exn) : Prop :=
| transform_raises (w1 : World) :
    transform enc [gender] w = (Raised e, w1) ->
    handle_raises age height gender model enc w e
| predict_raises (code : Z) (rest : list Z) (w1 w2 : World) :
    transform enc [gender] w = (Returned (code :: rest), w1) ->
    predict model [[age; height; code]] w1 = (Raised e, w2) ->
    handle_raises age height gender model enc w e.

(** The message of the [except ValueError] clause. *)
Definition invalid_gender_msg (gender : string) : string :=
  "❌ Invalid gender value: " ++ gender
  ++ ". Please select from available options.".

Definition is_prediction_shown {num : Type} (ev : event num) : bool :=
  match ev with
  | StPrediction _ _ _ _ => true
  | _ => false
  end.

Definition is_error_message {num : Type} (ev : event num) : bool :=
  match ev with
  | StError _ => true
  | _ => false
  end.

Definition is_transform_call {num : Type} (ev : event num) : bool :=
  match ev with
  | Transform _ => true
  | _ => false
  end.

Definition is_predict_call {num : Type} (ev : event num) : bool :=
  match ev with
  | Predict _ => true
  | _ => false
  end.

Definition is_storage_access {num : Type} (ev : event num) : bool :=
  match ev with
  | OsPathExists _ | OpenRb _ | PickleLoad _ => true
  | _ => false
  end.

(** ** Concrete objects for the script *)

Module ScriptFixtures.

Definition no_attribute {A B World : Type} (name : string)
  : A -> World -> outcome B * World :=
  fun _ w => (Raised (PyExn AttributeError name), w).

(** The unpickled [LabelEncoder]. *)
Definition encoder_object (classes : list string) : PyObject unit Z :=
  {| attr_predict := no_attribute "predict";
     attr_transform := transform (@Fixtures.sklearn_encoder unit classes);
     attr_classes_ := Returned classes |}.

(** The unpickled regressor. *)
Definition model_object : PyObject unit Z :=
  {| attr_predict := predict (@Fixtures.linear_model unit);
     attr_transform := no_attribute "transform";
     attr_classes_ := Raised (PyExn AttributeError "classes_") |}.

(** A [LabelEncoder] that was never fitted: it has no [classes_], and its
    [transform] raises scikit-learn's [NotFittedError], a [ValueError]. *)
Definition unfitted_encoder_object : PyObject unit Z :=
  {| attr_predict := no_attribute "predict";
     attr_transform := fun _ w =>
       (Raised (PyExn ValueError
                  "This LabelEncoder instance is not fitted yet."), w);
     attr_classes_ :=
       Raised (PyExn AttributeError
                 "'LabelEncoder' object has no attribute 'classes_'") |}.

(** Storage whose files hold the two objects under the names ["MODEL"] and
    ["ENCODER"]; anything else does not unpickle. *)
Definition object_store (dirs : list string) (files : list (string * string))
  : Storage (PyObject unit Z) :=
  {| path_exists := path_exists (Fixtures.disk dirs files);
     open_rb := open_rb (Fixtures.disk dirs files);
     pickle_load := fun data =>
       if (data =? "MODEL")%string then Returned model_object
       else if (data =? "ENCODER")%string then
         Returned (encoder_object Fixtures.genders)
       else Raised (PyExn UnpicklingError "invalid load key") |}.

Definition full_store : Storage (PyObject unit Z) :=
  object_store ["assets"]
    [("assets/model.pkl", "MODEL"); ("assets/label_encoder.pkl", "ENCODER")].

Definition ui_18_170_Male : Widgets :=
  {| ui_age := 18; ui_height := 170; ui_gender_choice := 1;
     ui_button := true |}.

End ScriptFixtures.

(** * Properties *)

Ltac run_open :=
  unfold predict_shoe_size, try_except, bind, foreign, getitem, st_error,
    emit, ret, raise; simpl.

(** Splits a membership in an explicit list and drops the impossible
    cases. *)
Ltac in_cases H :=
  simpl in H;
  repeat match type of H with
         | _ \/ _ => destruct H as [H | H]
         end;
  try discriminate H; try contradiction.

Section Facts.
Context {World num : Type}.
Variable round : num -> Z -> num.

(** The run of a call whose two handle calls both answer. *)
Lemma predict_shoe_size_success (age height : Z) (gender : string)
  (model : Regressor World num) (enc : LabelEncoder World)
  (w w1 w2 : World) (code : Z) (codes : list Z)
  (prediction : num) (predictions : list num) :
  transform enc [gender] w = (Returned (code :: codes), w1) ->
  predict model [[age; height; code]] w1
    = (Returned (prediction :: predictions), w2) ->
  predict_shoe_size round age height gender model enc w
    = mkRun (Returned (Some (round prediction 2))) w2
            [Transform [gender]; Predict [[age; height; code]]].
Proof.
  intros Ht Hp. run_open. rewrite Ht. simpl. rewrite Hp. reflexivity.
Qed.

(** The run of a call whose encoder raises [ValueError]. *)
Lemma predict_shoe_size_unseen (age height : Z) (gender msg : string)
  (model : Regressor World num) (enc : LabelEncoder World) (w w1 : World) :
  transform enc [gender] w = (Raised (PyExn ValueError msg), w1) ->
  predict_shoe_size round age height gender model enc w
    = mkRun (Returned None) w1
            [Transform [gender];
             StError ("❌ Invalid gender value: " ++ gender
                      ++ ". Please select from available options.")].
Proof.
  intros Ht. run_open. rewrite Ht. reflexivity.
Qed.

(** Whatever the handles do, a [Predict] event of a call carries the row
    [age, height, code], with [code] the first code the encoder gave. *)
Lemma predict_event_row (age height : Z) (gender : string)
  (model : Regressor World num) (enc : LabelEncoder World) (w : World)
  (X : list (list Z)) :
  In (Predict X)
     (trace (predict_shoe_size round age height gender model enc w)) ->
  exists code rest w1,
    transform enc [gender] w = (Returned (code :: rest), w1) /\
    X = [[age; height; code]].
Proof.
  run_open.
  destruct (transform enc [gender] w) as [[codes | e] w1] eqn:Ht; simpl.
  - destruct codes as [| code rest]; simpl.
    + intros H; in_cases H.
    + destruct (predict model [[age; height; code]] w1)
        as [[ys | e] w2] eqn:Hp; simpl.
      * destruct ys as [| y ys]; simpl; intros H; in_cases H;
          injection H as <-; eauto.
      * destruct (is_ValueError e); [| destruct (is_Exception e)]; simpl;
          intros H; in_cases H; injection H as <-; eauto.
  - destruct (is_ValueError e); [| destruct (is_Exception e)]; simpl;
      intros H; in_cases H.
Qed.

(** C1.  For every age in [1,100], every height in [50,250] and every gender
    among the encoder's known labels, [predict_shoe_size] returns the model's
    raw output for the feature row [age, height, code of gender], rounded to
    two decimal places by [round(prediction, 2)]. *)
Theorem predict_returns_rounded_output (age height : Z) (gender : string)
  (model : Regressor World num) (enc : LabelEncoder World) (w : World) :
  1 <= age <= 100 ->
  50 <= height <= 250 ->
  In gender (classes_ enc) ->
  FittedEncoder enc ->
  AnsweringRegressor model ->
  exists code w1 prediction w2,
    transform enc [gender] w = (Returned [code], w1) /\
    predict model [[age; height; code]] w1 = (Returned [prediction], w2) /\
    result (predict_shoe_size round age height gender model enc w)
      = Returned (Some (round prediction 2)).
Proof.
  intros _ _ Hin Henc Hmodel.
  destruct (transform_known gender w Hin) as (code & w1 & Ht).
  destruct (predict_answers age height code w1) as (y & w2 & Hp).
  exists code, w1, y, w2. repeat split; trivial.
  rewrite (predict_shoe_size_success _ _ _ _ _ _ _ _ _ _ _ _ Ht Hp).
  reflexivity.
Qed.

(** C3.  For every gender that is not among the encoder's known labels (the
    empty string included), [predict_shoe_size] fails: it returns [None],
    reports an error message that names the gender value, and never calls
    the model's [predict]. *)
Theorem unknown_gender_rejected (age height : Z) (gender : string)
  (model : Regressor World num) (enc : LabelEncoder World) (w : World) :
  FittedEncoder enc ->
  ~ In gender (classes_ enc) ->
  let r := predict_shoe_size round age height gender model enc w in
  result r = Returned None /\
  trace r = [Transform [gender];
             StError ("❌ Invalid gender value: " ++ gender
                      ++ ". Please select from available options.")] /\
  forall X, ~ In (Predict X) (trace r).
Proof.
  intros Henc Hnot.
  destruct (transform_unseen gender w Hnot) as (msg & w1 & Ht).
  cbv zeta. rewrite (predict_shoe_size_unseen _ _ _ _ _ _ _ _ Ht). simpl.
  repeat split. intros X H. in_cases H.
Qed.

(** C4.  In every prediction call, the feature vector handed to the model is
    the single row [age, height, gender_code], in this order, where
    [gender_code] is the code the encoder gave for the input gender. *)
Theorem feature_vector_order (age height : Z) (gender : string)
  (model : Regressor World num) (enc : LabelEncoder World) (w : World)
  (input_data : list (list Z)) :
  In (Predict input_data)
     (trace (predict_shoe_size round age height gender model enc w)) ->
  exists gender_code rest w1,
    transform enc [gender] w = (Returned (gender_code :: rest), w1) /\
    input_data = [[age; height; gender_code]].
Proof.
  apply predict_event_row.
Qed.

(** A number is returned only as the rounded first prediction of the model on
    the row built from the first code of the encoder. *)
Lemma Some_only_from_model (age height : Z) (gender : string)
  (model : Regressor World num) (enc : LabelEncoder World) (w : World)
  (v : num) :
  result (predict_shoe_size round age height gender model enc w)
    = Returned (Some v) ->
  exists code rest w1 prediction others w2,
    transform enc [gender] w = (Returned (code :: rest), w1) /\
    predict model [[age; height; code]] w1
      = (Returned (prediction :: others), w2) /\
    v = round prediction 2.
Proof.
  run_open.
  destruct (transform enc [gender] w) as [[codes | e] w1] eqn:Ht; simpl.
  - destruct codes as [| code rest]; simpl; [discriminate |].
    destruct (predict model [[age; height; code]] w1)
      as [[ys | e] w2] eqn:Hp; simpl.
    + destruct ys as [| y ys]; simpl; [discriminate |].
      intros H. injection H as <-. do 6 eexists. eauto.
    + destruct (is_ValueError e); [| destruct (is_Exception e)]; simpl;
        discriminate.
  - destruct (is_ValueError e); [| destruct (is_Exception e)]; simpl;
      discriminate.
Qed.

(** C5.  Every failing prediction call (unknown gender or any other encoding
    failure, model or inference failure) returns the failure signal [None]
    together with an error message; and a number is never returned unless it
    is the rounded output of the model: no failure becomes a default or
    guessed prediction. *)
Theorem failure_returns_None (age height : Z) (gender : string)
  (model : Regressor World num) (enc : LabelEncoder World) (w : World) :
  call_fails age height gender model enc w ->
  let r := predict_shoe_size round age height gender model enc w in
  result r = Returned None /\
  (exists msg, In (StError msg) (trace r)) /\
  (forall v, result r <> Returned (Some v)).
Proof.
  intros Hfail. cbv zeta.
  assert (Hnone :
    result (predict_shoe_size round age height gender model enc w)
      = Returned None /\
    exists msg,
      In (StError msg)
         (trace (predict_shoe_size round age height gender model enc w))).
  { destruct Hfail as [e w1 Ht He | w1 Ht | code rest e w1 w2 Ht Hp He
                      | code rest w1 w2 Ht Hp];
      run_open; rewrite Ht; simpl; try rewrite Hp; simpl;
      try (rewrite He; destruct (is_ValueError e)); simpl;
      split; trivial; eexists; simpl; eauto. }
  destruct Hnone as [Hres Hmsg]. repeat split; trivial.
  intros v Hv. rewrite Hres in Hv. discriminate.
Qed.

(** C8.  With a deterministic encoder and a deterministic model, two calls of
    [predict_shoe_size] on the same input and the same handles, made in any
    two states of the world (in particular one after the other), return the
    same value and show the same messages. *)
Theorem predict_shoe_size_deterministic (age height : Z) (gender : string)
  (model : Regressor World num) (enc : LabelEncoder World) (w w' : World) :
  deterministic (transform enc) ->
  deterministic (predict model) ->
  let first := predict_shoe_size round age height gender model enc w in
  let second := predict_shoe_size round age height gender model enc w' in
  let again :=
    predict_shoe_size round age height gender model enc (final first) in
  result first = result second /\ trace first = trace second /\
  result first = result again /\ trace first = trace again.
Proof.
  intros Henc Hmodel.
  assert (Hany : forall u u',
    result (predict_shoe_size round age height gender model enc u)
      = result (predict_shoe_size round age height gender model enc u') /\
    trace (predict_shoe_size round age height gender model enc u)
      = trace (predict_shoe_size round age height gender model enc u')).
  { intros u u'. run_open.
    pose proof (Henc [gender] u u') as Ht.
    destruct (transform enc [gender] u) as [o1 u1];
      destruct (transform enc [gender] u') as [o1' u1'].
    simpl in Ht. subst o1'. destruct o1 as [codes | e]; simpl.
    - destruct codes as [| code rest]; simpl; [split; reflexivity |].
      pose proof (Hmodel [[age; height; code]] u1 u1') as Hp.
      destruct (predict model [[age; height; code]] u1) as [o2 u2];
        destruct (predict model [[age; height; code]] u1') as [o2' u2'].
      simpl in Hp. subst o2'. destruct o2 as [ys | e]; simpl.
      + destruct ys; simpl; split; reflexivity.
      + destruct (is_ValueError e); [| destruct (is_Exception e)]; simpl;
          split; reflexivity.
    - destruct (is_ValueError e); [| destruct (is_Exception e)]; simpl;
        split; reflexivity. }
  cbv zeta.
  destruct (Hany w w') as [H1 H2].
  destruct (Hany w
    (final (predict_shoe_size round age height gender model enc w)))
    as [H3 H4].
  auto.
Qed.

(** C9, as the code has it.  Whenever the encoder and the model raise nothing
    outside the [Exception] hierarchy, [predict_shoe_size] raises nothing:
    every call returns [None] or a rounded numeric value. *)
Theorem no_Exception_escapes (age height : Z) (gender : string)
  (model : Regressor World num) (enc : LabelEncoder World) (w : World) :
  raises_only_Exception (transform enc) ->
  raises_only_Exception (predict model) ->
  let r := predict_shoe_size round age height gender model enc w in
  result r = Returned None \/
  exists prediction, result r = Returned (Some (round prediction 2)).
Proof.
  intros Henc Hmodel. cbv zeta. run_open.
  pose proof (Henc [gender] w) as Ht.
  destruct (transform enc [gender] w) as [[codes | e] w1]; simpl in *.
  - destruct codes as [| code rest]; simpl; [left; reflexivity |].
    pose proof (Hmodel [[age; height; code]] w1) as Hp.
    destruct (predict model [[age; height; code]] w1) as [[ys | e] w2];
      simpl in *.
    + destruct ys as [| y ys]; simpl; [left; reflexivity |].
      right. eexists. reflexivity.
    + rewrite (Hp e eq_refl). destruct (is_ValueError e); left; reflexivity.
  - rewrite (Ht e eq_refl). destruct (is_ValueError e); left; reflexivity.
Qed.

End Facts.

Section MainFacts.
Context {World num : Type}.
Variable round : num -> Z -> num.

Lemma range_guard_false (x lo hi : Z) :
  (x <? lo) || (x >? hi) = false <-> lo <= x <= hi.
Proof.
  rewrite orb_false_iff, Z.gtb_ltb, !Z.ltb_ge. lia.
Qed.

Lemma range_guard_true (x lo hi : Z) :
  (x <? lo) || (x >? hi) = true <-> x < lo \/ hi < x.
Proof.
  rewrite orb_true_iff, Z.gtb_ltb, !Z.ltb_lt. lia.
Qed.

Lemma truthy_Some (gender : option string) :
  truthy gender = true -> exists g, gender = Some g /\ g <> "".
Proof.
  destruct gender as [g |]; simpl; [| discriminate].
  intros H. exists g. split; trivial.
  intros ->. discriminate.
Qed.

(** Past its three guards, the branch is the call of [predict_shoe_size]
    followed by the display of its result. *)
Lemma main_predict_passes (age height : Z) (g : string)
  (model : Regressor World num) (enc : LabelEncoder World) :
  1 <= age <= 100 -> 50 <= height <= 250 -> g <> "" ->
  main_predict round true age height (Some g) model enc
  = (predicted_size <- predict_shoe_size round age height g model enc ;;
     match predicted_size with
     | Some size => emit (StPrediction size age height g) ;;; emit StInfoBox
     | None => ret tt
     end).
Proof.
  intros Ha Hh Hg. unfold main_predict.
  apply range_guard_false in Ha, Hh. rewrite Ha, Hh. simpl.
  destruct (String.eqb_spec g ""); [contradiction | reflexivity].
Qed.

(** C10.  In [main], the call of [predict_shoe_size] sits behind the guards:
    any call into the encoder or the model made by the prediction branch
    comes from [predict_shoe_size] invoked with an age in [1,100], a height
    in [50,250] and a non-empty gender string. *)
Theorem main_guards_precede_prediction (predict_button : bool)
  (age height : Z) (gender : option string)
  (model : Regressor World num) (enc : LabelEncoder World) (w : World)
  (ev : event num) :
  In ev (trace (main_predict round predict_button age height gender
                  model enc w)) ->
  is_handle_call ev = true ->
  predict_button = true /\
  1 <= age <= 100 /\ 50 <= height <= 250 /\
  exists g, gender = Some g /\ g <> "" /\
    In ev (trace (predict_shoe_size round age height g model enc w)).
Proof.
  unfold main_predict.
  destruct predict_button; [| intros H; in_cases H].
  destruct ((age <? 1) || (age >? 100)) eqn:Ha;
    [intros H Hc; in_cases H; subst ev; discriminate |].
  destruct ((height <? 50) || (height >? 250)) eqn:Hh;
    [intros H Hc; in_cases H; subst ev; discriminate |].
  destruct (truthy gender) eqn:Hg; simpl;
    [| intros H Hc; in_cases H; subst ev; discriminate].
  apply range_guard_false in Ha, Hh.
  destruct (truthy_Some _ Hg) as (g & -> & Hne).
  intros Hin Hcall. repeat split; try lia.
  exists g. repeat split; trivial.
  unfold bind in Hin.
  destruct (predict_shoe_size round age height g model enc w)
    as [[[size |] | e] w1 t1]; simpl in *; try assumption.
  - apply in_app_or in Hin. destruct Hin as [Hin | Hin]; trivial.
    in_cases Hin; subst ev; discriminate.
  - rewrite app_nil_r in Hin. assumption.
Qed.

(** C2, as the code has it.  For every age below 1 or above 100, and
    likewise every height outside [50,250], the prediction branch of [main]
    reports an error naming the out-of-range field (age first) and makes no
    call into the encoder or the model: [predict_shoe_size] is not called. *)
Theorem range_checked_by_main (age height : Z) (gender : option string)
  (model : Regressor World num) (enc : LabelEncoder World) (w : World) :
  (age < 1 \/ 100 < age) \/ (height < 50 \/ 250 < height) ->
  main_predict round true age height gender model enc w
  = mkRun (Returned tt) w
      [StError (if (age <? 1) || (age >? 100) then age_range_msg
                else height_range_msg)].
Proof.
  intros H. unfold main_predict.
  destruct ((age <? 1) || (age >? 100)) eqn:Ha; [reflexivity |].
  apply range_guard_false in Ha.
  destruct H as [H | H]; [lia |].
  apply range_guard_true in H. rewrite H. reflexivity.
Qed.

End MainFacts.

Ltac open_loader :=
  unfold load_models, cache_resource, load_models_body, open_and_unpickle,
    os_path_exists, st_stop, lift, try_except, bind, st_error, emit, ret,
    raise, model_path, encoder_path; simpl.

Section LoaderFacts.
Context {World num Obj : Type}.

(** A run of the body either returns two fully loaded handles after reading
    each artifact once, or raises. *)
Lemma load_models_body_returns (env : Storage Obj) (w : World)
  (handles : Obj * Obj) :
  result (@load_models_body World num Obj env w) = Returned handles ->
  loads_from env handles /\
  @load_models_body World num Obj env w
  = mkRun (Returned handles) w full_load_trace.
Proof.
  unfold loads_from, full_load_trace, model_path, encoder_path. open_loader.
  destruct (path_exists env "assets"); simpl; [| discriminate].
  destruct (path_exists env "assets/model.pkl"); simpl; [| discriminate].
  destruct (open_rb env "assets/model.pkl") as [dm | e] eqn:Hom; simpl;
    [| destruct (is_Exception e); simpl; discriminate].
  destruct (pickle_load env dm) as [m | e] eqn:Hpm; simpl;
    [| destruct (is_Exception e); simpl; discriminate].
  destruct (path_exists env "assets/label_encoder.pkl"); simpl;
    [| discriminate].
  destruct (open_rb env "assets/label_encoder.pkl") as [de | e] eqn:Hoe;
    simpl; [| destruct (is_Exception e); simpl; discriminate].
  destruct (pickle_load env de) as [enc | e] eqn:Hpe; simpl;
    [| destruct (is_Exception e); simpl; discriminate].
  intros H. injection H as <-. simpl.
  repeat split; trivial. exists dm, de. auto.
Qed.

(** Once the cache holds the handles, every call returns them and does
    nothing else. *)
Lemma load_models_cached_calls (handles : Obj * Obj)
  (envs : list (Storage Obj)) (w : World) :
  @load_models_calls World num Obj envs (Some handles) w
  = (List.map (fun _ => Returned handles) envs, []).
Proof.
  revert w. induction envs as [| env rest IH]; intros w; simpl; trivial.
  rewrite IH. reflexivity.
Qed.

(** C6.  [load_models] is idempotent: once a call has returned the handles,
    any later call in the process returns the same handles without touching
    the storage (whatever the storage holds by then), so that over the whole
    process lifetime each artifact is opened once and deserialized once. *)
Theorem load_models_idempotent (env : Storage Obj) (w : World)
  (handles : Obj * Obj) :
  result (fst (@load_models World num Obj env None w)) = Returned handles ->
  let cache := snd (@load_models World num Obj env None w) in
  (forall env' w',
     @load_models World num Obj env' cache w'
     = (mkRun (Returned handles) w' [], cache)) /\
  (forall later,
     let calls := @load_models_calls World num Obj (env :: later) None w in
     Forall (fun o => o = Returned handles) (fst calls) /\
     count (is_open_of model_path) (snd calls) = 1%nat /\
     count (is_unpickle_of model_path) (snd calls) = 1%nat /\
     count (is_open_of encoder_path) (snd calls) = 1%nat /\
     count (is_unpickle_of encoder_path) (snd calls) = 1%nat).
Proof.
  intros Hres.
  assert (Hbody : @load_models_body World num Obj env w
                  = mkRun (Returned handles) w full_load_trace).
  { apply load_models_body_returns. exact Hres. }
  assert (Hfirst : @load_models World num Obj env None w
                   = (mkRun (Returned handles) w full_load_trace,
                      Some handles)).
  { unfold load_models, cache_resource. rewrite Hbody. reflexivity. }
  cbv zeta. rewrite Hfirst. cbn [fst snd]. split.
  - reflexivity.
  - intros later. cbn [load_models_calls].
    rewrite Hfirst, load_models_cached_calls. cbn [fst snd result trace].
    rewrite app_nil_r. split.
    + constructor; trivial.
      apply Forall_forall. intros o Ho.
      apply in_map_iff in Ho. destruct Ho as (? & <- & _). reflexivity.
    + repeat split; reflexivity.
Qed.

(** C7.  When the asset directory is there and [assets/model.pkl] is not,
    [load_models] fails: it shows the error that names the model artifact
    (a message of its own, different from the ones for the directory and for
    the encoder), stops the script, caches nothing and never touches the
    encoder artifact.  And whatever the storage, a load returns handles only
    when both artifacts were read and deserialized: no partial handle. *)
Theorem missing_model_artifact (env : Storage Obj) (w : World) :
  path_exists env "assets" = true ->
  path_exists env model_path = false ->
  @load_models World num Obj env None w
  = (mkRun (Raised (PyExn StopException "")) w
       [OsPathExists "assets"; OsPathExists model_path;
        StError model_missing_msg], None) /\
  (forall ev,
     In ev (trace (fst (@load_models World num Obj env None w))) ->
     touches encoder_path ev = false) /\
  model_missing_msg <> assets_missing_msg /\
  model_missing_msg <> encoder_missing_msg /\
  (forall (env' : Storage Obj) w' handles,
     result (fst (@load_models World num Obj env' None w'))
       = Returned handles ->
     loads_from env' handles).
Proof.
  intros Hassets Hmodel.
  assert (Hrun : @load_models World num Obj env None w
    = (mkRun (Raised (PyExn StopException "")) w
         [OsPathExists "assets"; OsPathExists model_path;
          StError model_missing_msg], None)).
  { unfold model_path in *. open_loader. rewrite Hassets. simpl.
    rewrite Hmodel. reflexivity. }
  rewrite Hrun. cbn [fst trace].
  split; [reflexivity | split; [| split; [| split]]].
  - intros ev H. in_cases H; subst ev; reflexivity.
  - discriminate.
  - discriminate.
  - intros env' w' handles H.
    apply (load_models_body_returns env' w' handles). exact H.
Qed.

End LoaderFacts.

(** * The concrete handles meet the assumptions *)

Module FixtureFacts.
Import Fixtures.

Lemma index_of_known (label : string) (classes : list string) :
  In label classes -> exists code, index_of label classes = Some code.
Proof.
  induction classes as [| c cs IH]; simpl; [contradiction |].
  destruct (String.eqb_spec c label) as [-> | Hne]; [eauto |].
  intros [-> | Hin]; [contradiction |].
  destruct (IH Hin) as [code ->]. simpl. eauto.
Qed.

Lemma index_of_unseen (label : string) (classes : list string) :
  ~ In label classes -> index_of label classes = None.
Proof.
  induction classes as [| c cs IH]; simpl; trivial.
  intros Hnot.
  destruct (String.eqb_spec c label) as [-> | Hne]; [tauto |].
  rewrite IH; [reflexivity | tauto].
Qed.

#[global] Instance sklearn_encoder_fitted {World : Type}
  (classes : list string) :
  FittedEncoder (@sklearn_encoder World classes).
Proof.
  split; intros g w H; simpl.
  - destruct (index_of_known g classes H) as [code ->]. eauto.
  - rewrite (index_of_unseen g classes H). eauto.
Qed.

#[global] Instance linear_model_answers {World : Type} :
  AnsweringRegressor (@linear_model World).
Proof.
  split. intros a h c w. simpl. eauto.
Qed.

Lemma sklearn_encoder_raises_only_Exception {World : Type}
  (classes : list string) :
  raises_only_Exception (transform (@sklearn_encoder World classes)).
Proof.
  intros labels w e. simpl.
  destruct (encode_all classes labels); [discriminate |].
  intros H. injection H as <-. reflexivity.
Qed.

Lemma linear_model_raises_only_Exception {World : Type} :
  raises_only_Exception (predict (@linear_model World)).
Proof.
  intros X w e. simpl.
  destruct (linear_rows X); [discriminate |].
  intros H. injection H as <-. reflexivity.
Qed.

Lemma sklearn_encoder_deterministic {World : Type} (classes : list string) :
  deterministic (transform (@sklearn_encoder World classes)).
Proof.
  intros labels w w'. reflexivity.
Qed.

Lemma linear_model_deterministic {World : Type} :
  deterministic (predict (@linear_model World)).
Proof.
  intros X w w'. reflexivity.
Qed.

(** [round_fixed x 2] has two decimal places and is a nearest such number. *)
Lemma round_fixed_two_decimals (x : Z) :
  (round_fixed x 2) mod 100 = 0 /\ Z.abs (round_fixed x 2 - x) <= 50.
Proof.
  unfold round_fixed, round_half_even.
  change (4 <=? 2) with false. change (10 ^ (4 - 2)) with 100. cbv iota.
  pose proof (Z.div_mod x 100 ltac:(lia)) as Hdm.
  pose proof (Z.mod_pos_bound x 100 ltac:(lia)) as Hb.
  destruct (2 * (x mod 100) <? 100) eqn:H1;
    [| destruct (100 <? 2 * (x mod 100)) eqn:H2;
       [| destruct (Z.even (x / 100))]];
    rewrite Z.mod_mul by lia; split; trivial;
    try apply Z.ltb_lt in H1; try apply Z.ltb_ge in H1;
    try apply Z.ltb_lt in H2; try apply Z.ltb_ge in H2; lia.
Qed.

(** An 18 year old, 170 cm tall male: 9.0109 is shown as 9.01. *)
Example predict_18_170_Male :
  predict_shoe_size round_fixed 18 170 "Male"
    linear_model (sklearn_encoder genders) tt
  = mkRun (Returned (Some 90100)) tt
      [Transform ["Male"]; Predict [[18; 170; 1]]].
Proof. reflexivity. Qed.

Example predict_25_180_Alien :
  predict_shoe_size round_fixed 25 180 "Alien"
    linear_model (sklearn_encoder genders) tt
  = mkRun (Returned None) tt
      [Transform ["Alien"];
       StError "❌ Invalid gender value: Alien. Please select from available options."].
Proof. reflexivity. Qed.

(** A model with hidden state answers the same input differently: the
    determinism of [predict_shoe_size] does rest on that of its handles. *)
Example counting_model_differs :
  let first :=
    predict_shoe_size round_fixed 18 170 "Male"
      counting_model (sklearn_encoder genders) 0 in
  let again :=
    predict_shoe_size round_fixed 18 170 "Male"
      counting_model (sklearn_encoder genders) (final first) in
  result first = Returned (Some 0) /\ result again = Returned (Some 10000).
Proof. split; reflexivity. Qed.

(** Without the asset directory the loader stops at once. *)
Example load_models_on_empty_disk :
  @load_models unit Z string empty_disk None tt
  = (mkRun (Raised (PyExn StopException "")) tt
       [OsPathExists "assets"; StError assets_missing_msg], None).
Proof. reflexivity. Qed.

(** A model artifact that does not deserialize: the [except Exception]
    clause reports the cause and stops, before the encoder is looked at. *)
Example load_models_on_corrupt_model :
  @load_models unit Z string
     (disk ["assets"]
        [("assets/model.pkl", ""); ("assets/label_encoder.pkl", "ENCODER")])
     None tt
  = (mkRun (Raised (PyExn StopException "")) tt
       [OsPathExists "assets"; OsPathExists model_path;
        OpenRb model_path; PickleLoad model_path;
        StError "❌ Error loading model files: Ran out of input";
        StError ensure_both_msg], None).
Proof. reflexivity. Qed.

End FixtureFacts.

(** * The properties on concrete runs *)

Import Fixtures FixtureFacts.

(** C1 on an 18 year old, 170 cm tall male. *)
Lemma predict_returns_rounded_output_witness :
  exists code w1 prediction w2,
    transform (sklearn_encoder genders) ["Male"] tt = (Returned [code], w1) /\
    predict linear_model [[18; 170; code]] w1 = (Returned [prediction], w2) /\
    result (predict_shoe_size round_fixed 18 170 "Male"
              linear_model (sklearn_encoder genders) tt)
      = Returned (Some (round_fixed prediction 2)).
Proof.
  apply (predict_returns_rounded_output round_fixed 18 170 "Male"
           linear_model (sklearn_encoder genders) tt).
  - lia.
  - lia.
  - simpl. auto.
  - apply sklearn_encoder_fitted.
  - apply linear_model_answers.
Defined.

(** C2 fails on the code: with age 0, [predict_shoe_size] reports no error
    and returns a number. *)
Lemma predict_shoe_size_checks_no_range :
  0 < 1 /\
  result (predict_shoe_size round_fixed 0 170 "Male"
            linear_model (sklearn_encoder genders) tt)
    = Returned (Some 89800) /\
  forall msg,
    ~ In (StError msg)
         (trace (predict_shoe_size round_fixed 0 170 "Male"
                   linear_model (sklearn_encoder genders) tt)).
Proof.
  split; [lia |]. split; [reflexivity |].
  intros msg H. in_cases H.
Qed.

(** The range check of [main] on age 0. *)
Lemma range_checked_by_main_witness :
  main_predict round_fixed true 0 170 (Some "Male")
    linear_model (sklearn_encoder genders) tt
  = mkRun (Returned tt) tt [StError age_range_msg].
Proof.
  apply (range_checked_by_main round_fixed 0 170 (Some "Male")
           linear_model (sklearn_encoder genders) tt).
  left. left. lia.
Defined.

(** C3 on the gender "Alien". *)
Lemma unknown_gender_rejected_witness :
  let r := predict_shoe_size round_fixed 25 180 "Alien"
             linear_model (sklearn_encoder genders) tt in
  result r = Returned None /\
  trace r = [Transform ["Alien"];
             StError ("❌ Invalid gender value: " ++ "Alien"
                      ++ ". Please select from available options.")] /\
  forall X, ~ In (Predict X) (trace r).
Proof.
  apply (unknown_gender_rejected round_fixed 25 180 "Alien"
           linear_model (sklearn_encoder genders) tt).
  - apply sklearn_encoder_fitted.
  - simpl. intros [H | [H | []]]; discriminate.
Defined.

(** C4 on the row handed to the model for an 18 year old, 170 cm tall
    male. *)
Lemma feature_vector_order_witness :
  exists gender_code rest w1,
    transform (sklearn_encoder genders) ["Male"] tt
      = (Returned (gender_code :: rest), w1) /\
    [[18; 170; 1]] = [[18; 170; gender_code]].
Proof.
  apply (feature_vector_order round_fixed 18 170 "Male"
           linear_model (sklearn_encoder genders) tt [[18; 170; 1]]).
  simpl. auto.
Defined.

(** C5 on a model whose inference fails. *)
Lemma failure_returns_None_witness :
  let r := predict_shoe_size round_fixed 18 170 "Male"
             (raising_model (PyExn RuntimeError "singular matrix"))
             (sklearn_encoder genders) tt in
  result r = Returned None /\
  (exists msg, In (StError msg) (trace r)) /\
  (forall v, result r <> Returned (Some v)).
Proof.
  apply (failure_returns_None round_fixed 18 170 "Male"
           (raising_model (PyExn RuntimeError "singular matrix"))
           (sklearn_encoder genders) tt).
  apply (inference_raises 18 170 "Male" _ _ tt 1 []
           (PyExn RuntimeError "singular matrix") tt tt); reflexivity.
Defined.

(** C6 on a storage that holds both artifacts. *)
Lemma load_models_idempotent_witness :
  let cache := snd (@load_models unit Z string full_disk None tt) in
  (forall env' w',
     @load_models unit Z string env' cache w'
     = (mkRun (Returned ("MODEL", "ENCODER")) w' [], cache)) /\
  (forall later,
     let calls :=
       @load_models_calls unit Z string (full_disk :: later) None tt in
     Forall (fun o => o = Returned ("MODEL", "ENCODER")) (fst calls) /\
     count (is_open_of model_path) (snd calls) = 1%nat /\
     count (is_unpickle_of model_path) (snd calls) = 1%nat /\
     count (is_open_of encoder_path) (snd calls) = 1%nat /\
     count (is_unpickle_of encoder_path) (snd calls) = 1%nat).
Proof.
  apply (@load_models_idempotent unit Z string full_disk tt
           ("MODEL", "ENCODER")).
  reflexivity.
Defined.

(** C7 on a storage without [assets/model.pkl]. *)
Lemma missing_model_artifact_witness :
  @load_models unit Z string disk_without_model None tt
  = (mkRun (Raised (PyExn StopException "")) tt
       [OsPathExists "assets"; OsPathExists model_path;
        StError model_missing_msg], None) /\
  (forall ev,
     In ev (trace (fst (@load_models unit Z string
                          disk_without_model None tt))) ->
     touches encoder_path ev = false) /\
  model_missing_msg <> assets_missing_msg /\
  model_missing_msg <> encoder_missing_msg /\
  (forall (env' : Storage string) w' handles,
     result (fst (@load_models unit Z string env' None w'))
       = Returned handles ->
     loads_from env' handles).
Proof.
  apply (@missing_model_artifact unit Z string disk_without_model tt);
    reflexivity.
Defined.

(** C8 on two calls, one after the other. *)
Lemma predict_shoe_size_deterministic_witness :
  let first := predict_shoe_size round_fixed 18 170 "Male"
                 linear_model (sklearn_encoder genders) tt in
  let second := predict_shoe_size round_fixed 18 170 "Male"
                  linear_model (sklearn_encoder genders) tt in
  let again := predict_shoe_size round_fixed 18 170 "Male"
                 linear_model (sklearn_encoder genders) (final first) in
  result first = result second /\ trace first = trace second /\
  result first = result again /\ trace first = trace again.
Proof.
  apply (predict_shoe_size_deterministic round_fixed 18 170 "Male"
           linear_model (sklearn_encoder genders) tt tt).
  - apply sklearn_encoder_deterministic.
  - apply linear_model_deterministic.
Defined.

(** C9 fails on the code: an interrupt raised inside the model's [predict]
    is outside the [Exception] hierarchy, so neither handler takes it and it
    reaches the caller. *)
Lemma KeyboardInterrupt_escapes :
  result (predict_shoe_size round_fixed 18 170 "Male"
            (raising_model (PyExn KeyboardInterrupt ""))
            (sklearn_encoder genders) tt)
    = Raised (PyExn KeyboardInterrupt "") /\
  ~ exists v,
      result (predict_shoe_size round_fixed 18 170 "Male"
                (raising_model (PyExn KeyboardInterrupt ""))
                (sklearn_encoder genders) tt)
      = Returned v.
Proof.
  split; [reflexivity |].
  intros [v H]. discriminate H.
Qed.

(** C9, as amended, on a model that raises [RuntimeError]. *)
Lemma no_Exception_escapes_witness :
  let r := predict_shoe_size round_fixed 18 170 "Male"
             (raising_model (PyExn RuntimeError "singular matrix"))
             (sklearn_encoder genders) tt in
  result r = Returned None \/
  exists prediction, result r = Returned (Some (round_fixed prediction 2)).
Proof.
  apply (no_Exception_escapes round_fixed 18 170 "Male"
           (raising_model (PyExn RuntimeError "singular matrix"))
           (sklearn_encoder genders) tt).
  - apply sklearn_encoder_raises_only_Exception.
  - intros X w e H. simpl in H. injection H as <-. reflexivity.
Defined.

(** C10 on the encoder call made for an 18 year old, 170 cm tall male. *)
Lemma main_guards_precede_prediction_witness :
  true = true /\
  1 <= 18 <= 100 /\ 50 <= 170 <= 250 /\
  exists g, Some "Male" = Some g /\ g <> "" /\
    In (@Transform Z ["Male"])
       (trace (predict_shoe_size round_fixed 18 170 g
                 linear_model (sklearn_encoder genders) tt)).
Proof.
  apply (main_guards_precede_prediction round_fixed true 18 170 (Some "Male")
           linear_model (sklearn_encoder genders) tt (Transform ["Male"])).
  - simpl. auto.
  - reflexivity.
Defined.

(** * Further properties of the prediction call *)

Section PredictionFacts.
Context {World num : Type}.
Variable round : num -> Z -> num.

(** X1.  The [except ValueError] clause does not tell the encoder from the
    model: a [ValueError] raised by [model.predict] on a gender the encoder
    knows is reported as an invalid gender value, and [None] is returned. *)
Theorem model_ValueError_blamed_on_gender (age height : Z) (gender : string)
  (model : Regressor World num) (enc : LabelEncoder World)
  (w w1 w2 : World) (code : Z) (rest : list Z) (msg : string) :
  transform enc [gender] w = (Returned (code :: rest), w1) ->
  predict model [[age; height; code]] w1
    = (Raised (PyExn ValueError msg), w2) ->
  predict_shoe_size round age height gender model enc w
  = mkRun (Returned None) w2
      [Transform [gender]; Predict [[age; height; code]];
       StError (invalid_gender_msg gender)].
Proof.
  intros Ht Hp. run_open. rewrite Ht. simpl. rewrite Hp. reflexivity.
Qed.

(** X2.  Any other exception of the [Exception] hierarchy, raised by the
    encoder or by the model, ends the call with [None] and with the message
    "Prediction error" carrying [str(e)], shown after the calls made. *)
Theorem other_error_reported_with_cause (age height : Z) (gender : string)
  (model : Regressor World num) (enc : LabelEncoder World) (w : World)
  (e : exn) :
  handle_raises age height gender model enc w e ->
  is_Exception e = true ->
  is_ValueError e = false ->
  let r := predict_shoe_size round age height gender model enc w in
  result r = Returned None /\
  exists calls,
    trace r = (calls ++ [StError ("❌ Prediction error: " ++ str e)])%list /\
    forallb is_handle_call calls = true.
Proof.
  intros Hraise Hexc Hval. cbv zeta.
  destruct Hraise as [w1 Ht | code rest w1 w2 Ht Hp]; run_open;
    rewrite Ht; simpl; try rewrite Hp; simpl; rewrite Hval, Hexc; simpl;
    split; trivial.
  - exists [Transform [gender]]. split; reflexivity.
  - exists [Transform [gender]; Predict [[age; height; code]]].
    split; reflexivity.
Qed.

(** X3.  An exception outside the [Exception] hierarchy raised by a handle
    leaves [predict_shoe_size] unchanged and without any message: the trace
    holds the calls made and nothing else. *)
Theorem non_Exception_propagates (age height : Z) (gender : string)
  (model : Regressor World num) (enc : LabelEncoder World) (w : World)
  (e : exn) :
  handle_raises age height gender model enc w e ->
  is_Exception e = false ->
  let r := predict_shoe_size round age height gender model enc w in
  result r = Raised e /\
  forallb is_handle_call (trace r) = true.
Proof.
  intros Hraise Hexc. cbv zeta.
  assert (Hval : is_ValueError e = false).
  { destruct e as [[] args]; trivial; discriminate. }
  destruct Hraise as [w1 Ht | code rest w1 w2 Ht Hp]; run_open;
    rewrite Ht; simpl; try rewrite Hp; simpl; rewrite Hval, Hexc; simpl;
    split; reflexivity.
Qed.

(** X4.  Whatever the handles do, the failure signal [None] comes with
    exactly one error message, and a returned number or a propagated
    exception with none. *)
Theorem one_message_per_failure (age height : Z) (gender : string)
  (model : Regressor World num) (enc : LabelEncoder World) (w : World) :
  let r := predict_shoe_size round age height gender model enc w in
  count is_error_message (trace r)
  = match result r with
    | Returned None => 1%nat
    | _ => 0%nat
    end.
Proof.
  cbv zeta. run_open.
  destruct (transform enc [gender] w) as [[codes | e] w1]; simpl.
  - destruct codes as [| code rest]; simpl; [reflexivity |].
    destruct (predict model [[age; height; code]] w1) as [[ys | e] w2];
      simpl.
    + destruct ys; reflexivity.
    + destruct (is_ValueError e); [| destruct (is_Exception e)]; reflexivity.
  - destruct (is_ValueError e); [| destruct (is_Exception e)]; reflexivity.
Qed.

(** X5.  Whatever the handles do, a call asks the encoder exactly once, for
    the one label [gender] and before anything else, and asks the model once
    when the encoder gave at least one code and not at all otherwise. *)
Theorem call_discipline (age height : Z) (gender : string)
  (model : Regressor World num) (enc : LabelEncoder World) (w : World) :
  let r := predict_shoe_size round age height gender model enc w in
  (exists rest, trace r = Transform [gender] :: rest) /\
  count is_transform_call (trace r) = 1%nat /\
  count is_predict_call (trace r)
  = match fst (transform enc [gender] w) with
    | Returned (_ :: _) => 1%nat
    | _ => 0%nat
    end.
Proof.
  cbv zeta. run_open.
  destruct (transform enc [gender] w) as [[codes | e] w1]; simpl.
  - destruct codes as [| code rest]; simpl; [eauto |].
    destruct (predict model [[age; height; code]] w1) as [[ys | e] w2];
      simpl.
    + destruct ys; simpl; eauto.
    + destruct (is_ValueError e); [| destruct (is_Exception e)]; simpl;
        eauto.
  - destruct (is_ValueError e); [| destruct (is_Exception e)]; simpl; eauto.
Qed.

End PredictionFacts.

(** * Further properties of [main] *)

Ltac handler_cases :=
  repeat match goal with
         | |- context [is_ValueError ?e] => destruct (is_ValueError e); simpl
         | |- context [is_Exception ?e] => destruct (is_Exception e); simpl
         end.

(** Opens a prediction call and goes through everything the two handles can
    answer. *)
Ltac predict_cases age height gender model enc w :=
  run_open;
  let codes := fresh "codes" in
  let code := fresh "code" in
  let ys := fresh "ys" in
  destruct (transform enc [gender] w) as [[codes | ?e] ?w1]; simpl;
  [ destruct codes as [| code ?rest]; simpl;
    [ | destruct (predict model [[age; height; code]] _)
          as [[ys | ?e] ?w2]; simpl;
        [ destruct ys; simpl | handler_cases ] ]
  | handler_cases ].

Section MainExtras.
Context {World num : Type}.
Variable round : num -> Z -> num.

Lemma count_app {A : Type} (p : A -> bool) (l1 l2 : list A) :
  count p (l1 ++ l2) = (count p l1 + count p l2)%nat.
Proof.
  unfold count. rewrite filter_app, length_app. reflexivity.
Qed.

Lemma error_count_of_call (age height : Z) (gender : string)
  (model : Regressor World num) (enc : LabelEncoder World) (w : World) :
  count is_error_message
    (trace (predict_shoe_size round age height gender model enc w))
  = match result (predict_shoe_size round age height gender model enc w) with
    | Returned None => 1%nat
    | _ => 0%nat
    end.
Proof.
  predict_cases age height gender model enc w; reflexivity.
Qed.

Lemma call_shows_no_prediction (age height : Z) (gender : string)
  (model : Regressor World num) (enc : LabelEncoder World) (w : World) :
  count is_prediction_shown
    (trace (predict_shoe_size round age height gender model enc w)) = 0%nat.
Proof.
  predict_cases age height gender model enc w; reflexivity.
Qed.

Lemma call_reads_no_storage (age height : Z) (gender : string)
  (model : Regressor World num) (enc : LabelEncoder World) (w : World) :
  forallb (fun ev => negb (is_storage_access ev))
    (trace (predict_shoe_size round age height gender model enc w)) = true.
Proof.
  predict_cases age height gender model enc w; reflexivity.
Qed.

Lemma call_returns_when_only_Exceptions (age height : Z) (gender : string)
  (model : Regressor World num) (enc : LabelEncoder World) (w : World) :
  raises_only_Exception (transform enc) ->
  raises_only_Exception (predict model) ->
  exists v,
    result (predict_shoe_size round age height gender model enc w)
    = Returned v.
Proof.
  intros Henc Hmodel. run_open.
  pose proof (Henc [gender] w) as Ht.
  destruct (transform enc [gender] w) as [[codes | e] w1]; simpl in *.
  - destruct codes as [| code rest]; simpl; [eauto |].
    pose proof (Hmodel [[age; height; code]] w1) as Hp.
    destruct (predict model [[age; height; code]] w1) as [[ys | e] w2];
      simpl in *.
    + destruct ys; simpl; eauto.
    + rewrite (Hp e eq_refl). destruct (is_ValueError e); simpl; eauto.
  - rewrite (Ht e eq_refl). destruct (is_ValueError e); simpl; eauto.
Qed.

(** X6.  With age and height in range, a gender that is [None] or the empty
    string is refused by [main] with "Please select a gender", before any
    call to the encoder or the model; this holds even for an encoder that
    has the empty string among its classes. *)
Theorem missing_gender_rejected (age height : Z) (gender : option string)
  (model : Regressor World num) (enc : LabelEncoder World) (w : World) :
  1 <= age <= 100 ->
  50 <= height <= 250 ->
  gender = None \/ gender = Some "" ->
  main_predict round true age height gender model enc w
  = mkRun (Returned tt) w [StError gender_missing_msg].
Proof.
  intros Ha Hh Hg. unfold main_predict.
  apply range_guard_false in Ha, Hh. rewrite Ha, Hh.
  destruct Hg as [-> | ->]; reflexivity.
Qed.

(** X7.  A prediction shown by [main] is the value [predict_shoe_size]
    returned for the age, height and gender shown with it, and is shown only
    when the button was pressed and the guards passed. *)
Theorem shown_prediction_is_returned_value (predict_button : bool)
  (age height : Z) (gender : option string)
  (model : Regressor World num) (enc : LabelEncoder World) (w : World)
  (size : num) (a h : Z) (g : string) :
  In (StPrediction size a h g)
     (trace (main_predict round predict_button age height gender
               model enc w)) ->
  predict_button = true /\ a = age /\ h = height /\ gender = Some g /\
  1 <= age <= 100 /\ 50 <= height <= 250 /\ g <> "" /\
  result (predict_shoe_size round age height g model enc w)
  = Returned (Some size).
Proof.
  unfold main_predict.
  destruct predict_button; [| intros H; in_cases H].
  destruct ((age <? 1) || (age >? 100)) eqn:Ha; [intros H; in_cases H |].
  destruct ((height <? 50) || (height >? 250)) eqn:Hh;
    [intros H; in_cases H |].
  destruct (truthy gender) eqn:Hg; simpl; [| intros H; in_cases H].
  apply range_guard_false in Ha, Hh.
  destruct (truthy_Some _ Hg) as (g' & -> & Hne).
  pose proof (call_shows_no_prediction age height g' model enc w) as Hnone.
  unfold bind.
  destruct (predict_shoe_size round age height g' model enc w)
    as [[[size' |] | e] w1 t1] eqn:Hrun; simpl in *; intros Hin.
  - apply in_app_or in Hin. destruct Hin as [Hin | Hin].
    + exfalso. unfold count in Hnone.
      assert (Hf : In (StPrediction size a h g)
                      (filter is_prediction_shown t1)).
      { apply filter_In. split; trivial. }
      destruct (filter is_prediction_shown t1); [contradiction | discriminate].
    + in_cases Hin. injection Hin as <- <- <- <-. rewrite Hrun.
      repeat split; trivial; lia.
  - exfalso. rewrite app_nil_r in Hin. unfold count in Hnone.
    assert (Hf : In (StPrediction size a h g)
                    (filter is_prediction_shown t1)).
    { apply filter_In. split; trivial. }
    destruct (filter is_prediction_shown t1); [contradiction | discriminate].
  - exfalso. unfold count in Hnone.
    assert (Hf : In (StPrediction size a h g)
                    (filter is_prediction_shown t1)).
    { apply filter_In. split; trivial. }
    destruct (filter is_prediction_shown t1); [contradiction | discriminate].
Qed.

(** X8.  Whatever the handles do, a press of the button that comes back is
    answered by exactly one thing, an error message or a prediction, never
    both and never neither; a press that ends in a propagated exception
    shows neither. *)
Theorem one_answer_per_press (age height : Z) (gender : option string)
  (model : Regressor World num) (enc : LabelEncoder World) (w : World) :
  let r := main_predict round true age height gender model enc w in
  (count is_error_message (trace r)
   + count is_prediction_shown (trace r))%nat
  = match result r with
    | Returned _ => 1%nat
    | Raised _ => 0%nat
    end.
Proof.
  cbv zeta. unfold main_predict.
  destruct ((age <? 1) || (age >? 100)); [reflexivity |].
  destruct ((height <? 50) || (height >? 250)); [reflexivity |].
  destruct (truthy gender) eqn:Hg; simpl; [| reflexivity].
  destruct (truthy_Some _ Hg) as (g & -> & Hne).
  pose proof (call_shows_no_prediction age height g model enc w) as Hnone.
  pose proof (error_count_of_call age height g model enc w) as Herr.
  unfold bind.
  destruct (predict_shoe_size round age height g model enc w)
    as [[[size |] | e] w1 t1]; simpl in *.
  - rewrite !count_app, Hnone, Herr. reflexivity.
  - rewrite app_nil_r, Hnone, Herr. reflexivity.
  - rewrite Hnone, Herr. reflexivity.
Qed.

(** X9.  When the encoder and the model raise nothing outside the
    [Exception] hierarchy, the prediction branch of [main] never raises,
    whatever the widgets hold. *)
Theorem button_never_crashes (predict_button : bool) (age height : Z)
  (gender : option string)
  (model : Regressor World num) (enc : LabelEncoder World) (w : World) :
  raises_only_Exception (transform enc) ->
  raises_only_Exception (predict model) ->
  result (main_predict round predict_button age height gender model enc w)
  = Returned tt.
Proof.
  intros Henc Hmodel. unfold main_predict.
  destruct predict_button; [| reflexivity].
  destruct ((age <? 1) || (age >? 100)); [reflexivity |].
  destruct ((height <? 50) || (height >? 250)); [reflexivity |].
  destruct (truthy gender) eqn:Hg; simpl; [| reflexivity].
  destruct (truthy_Some _ Hg) as (g & -> & Hne).
  destruct (call_returns_when_only_Exceptions age height g model enc w
              Henc Hmodel) as [v Hv].
  unfold bind.
  destruct (predict_shoe_size round age height g model enc w)
    as [[[size |] | e] w1 t1]; simpl in *; try reflexivity.
  discriminate.
Qed.

(** X10.  With a fitted encoder and an answering model, an age and a height
    in range and a non-empty gender among the encoder's classes, a press of
    the button makes one encoder call and one model call and shows the
    rounded output of the model with the three inputs, and no error. *)
Theorem valid_input_shows_prediction (age height : Z) (g : string)
  (model : Regressor World num) (enc : LabelEncoder World) (w : World) :
  FittedEncoder enc ->
  AnsweringRegressor model ->
  1 <= age <= 100 ->
  50 <= height <= 250 ->
  In g (classes_ enc) ->
  g <> "" ->
  exists code w1 prediction w2,
    transform enc [g] w = (Returned [code], w1) /\
    predict model [[age; height; code]] w1 = (Returned [prediction], w2) /\
    main_predict round true age height (Some g) model enc w
    = mkRun (Returned tt) w2
        [Transform [g]; Predict [[age; height; code]];
         StPrediction (round prediction 2) age height g; StInfoBox].
Proof.
  intros Henc Hmodel Ha Hh Hin Hne.
  destruct (transform_known g w Hin) as (code & w1 & Ht).
  destruct (predict_answers age height code w1) as (y & w2 & Hp).
  exists code, w1, y, w2. repeat split; trivial.
  rewrite (main_predict_passes round age height g model enc Ha Hh Hne).
  unfold bind.
  rewrite (predict_shoe_size_success round _ _ _ _ _ _ _ _ _ _ _ _ Ht Hp).
  reflexivity.
Qed.

End MainExtras.

(** * Further properties of the loader *)

(** Closes the case of a load that stopped after an error message. *)
Ltac stopped :=
  simpl;
  split; [reflexivity | split; [eexists; simpl; eauto 12 | reflexivity]].

Section LoaderExtras.
Context {World num Obj : Type}.

Lemma load_models_body_of_loads_from (env : Storage Obj) (w : World)
  (handles : Obj * Obj) :
  loads_from env handles ->
  @load_models_body World num Obj env w
  = mkRun (Returned handles) w full_load_trace.
Proof.
  destruct handles as [m e].
  intros (Ha & Hm & He & dm & de & Hom & Hpm & Hoe & Hpe).
  unfold model_path, encoder_path in *. simpl in *.
  open_loader. rewrite Ha. simpl. rewrite Hm. simpl. rewrite Hom. simpl.
  rewrite Hpm. simpl. rewrite He. simpl. rewrite Hoe. simpl.
  rewrite Hpe. reflexivity.
Qed.

(** When the storage raises only exceptions of the [Exception] hierarchy, a
    run of the body returns the loaded handles or ends in [st.stop()] after
    at least one error message, having done nothing but look at the
    storage. *)
Lemma load_models_body_outcome (env : Storage Obj) (w : World) :
  storage_raises_only_Exception env ->
  (exists handles,
     loads_from env handles /\
     @load_models_body World num Obj env w
     = mkRun (Returned handles) w full_load_trace) \/
  (result (@load_models_body World num Obj env w)
   = Raised (PyExn StopException "") /\
   (exists msg,
      In (StError msg) (trace (@load_models_body World num Obj env w))) /\
   forallb (fun ev => is_storage_access ev || is_error_message ev)
     (trace (@load_models_body World num Obj env w)) = true).
Proof.
  intros [Hopen Hpickle].
  destruct (@load_models_body World num Obj env w) as [o w' t] eqn:Hrun.
  destruct o as [handles | e].
  - left. exists handles.
    assert (Hres : result (@load_models_body World num Obj env w)
                   = Returned handles) by (rewrite Hrun; reflexivity).
    destruct (load_models_body_returns env w handles Hres) as [Hl Heq].
    split; trivial. rewrite <- Hrun. exact Heq.
  - right. revert Hrun. open_loader.
    destruct (path_exists env "assets"); simpl;
      [| intros H; injection H as <- <- <-; stopped].
    destruct (path_exists env "assets/model.pkl"); simpl;
      [| intros H; injection H as <- <- <-; stopped].
    destruct (open_rb env "assets/model.pkl") as [dm | e1] eqn:Hom; simpl;
      [| rewrite (Hopen _ _ Hom); simpl;
         intros H; injection H as <- <- <-; stopped].
    destruct (pickle_load env dm) as [m | e1] eqn:Hpm; simpl;
      [| rewrite (Hpickle _ _ Hpm); simpl;
         intros H; injection H as <- <- <-; stopped].
    destruct (path_exists env "assets/label_encoder.pkl"); simpl;
      [| intros H; injection H as <- <- <-; stopped].
    destruct (open_rb env "assets/label_encoder.pkl") as [de | e1] eqn:Hoe;
      simpl;
      [| rewrite (Hopen _ _ Hoe); simpl;
         intros H; injection H as <- <- <-; stopped].
    destruct (pickle_load env de) as [enc | e1] eqn:Hpe; simpl;
      [discriminate |].
    rewrite (Hpickle _ _ Hpe); simpl.
    intros H; injection H as <- <- <-; stopped.
Qed.

(** X11.  Without the asset directory [load_models] shows the message about
    the folder, stops the script and caches nothing; it looks at no
    artifact. *)
Theorem missing_assets_directory (env : Storage Obj) (w : World) :
  path_exists env "assets" = false ->
  @load_models World num Obj env None w
  = (mkRun (Raised (PyExn StopException "")) w
       [OsPathExists "assets"; StError assets_missing_msg], None).
Proof.
  intros Ha. open_loader. rewrite Ha. reflexivity.
Qed.

(** X12.  When the model loads and [assets/label_encoder.pkl] is absent,
    [load_models] shows the message that names the encoder artifact and
    stops: the model that was already deserialized is neither returned nor
    cached. *)
Theorem missing_encoder_artifact (env : Storage Obj) (w : World)
  (model : Obj) :
  model_loads env model ->
  path_exists env encoder_path = false ->
  @load_models World num Obj env None w
  = (mkRun (Raised (PyExn StopException "")) w
       [OsPathExists "assets";
        OsPathExists model_path; OpenRb model_path; PickleLoad model_path;
        OsPathExists encoder_path; StError encoder_missing_msg], None).
Proof.
  intros (Ha & Hm & dm & Hom & Hpm) He.
  unfold model_path, encoder_path in *.
  open_loader. rewrite Ha. simpl. rewrite Hm. simpl. rewrite Hom. simpl.
  rewrite Hpm. simpl. rewrite He. reflexivity.
Qed.

(** X13.  When [open] or [pickle.load] raises an exception [e] of the
    [Exception] hierarchy on either artifact, [load_models] shows "Error
    loading model files" with [str(e)], then the advice to provide both
    files, stops the script and caches nothing; these are its only
    messages. *)
Theorem unreadable_artifact_reported (env : Storage Obj) (w : World)
  (e : exn) :
  artifact_unreadable env e ->
  is_Exception e = true ->
  let r := @load_models World num Obj env None w in
  result (fst r) = Raised (PyExn StopException "") /\
  snd r = None /\
  exists accesses,
    trace (fst r)
    = (accesses ++ [StError ("❌ Error loading model files: " ++ str e);
                    StError ensure_both_msg])%list /\
    forallb is_storage_access accesses = true.
Proof.
  intros Hbad Hexc. cbv zeta.
  destruct Hbad as [Ha Hm Hom | dm Ha Hm Hom Hpm
                   | m (Ha & Hm & dm & Hom & Hpm) He Hoe
                   | m de (Ha & Hm & dm & Hom & Hpm) He Hoe Hpe];
    unfold model_path, encoder_path in *; open_loader;
    rewrite Ha; simpl; rewrite Hm; simpl; rewrite Hom; simpl;
    try (rewrite Hpm; simpl); try (rewrite He; simpl);
    try (rewrite Hoe; simpl); try (rewrite Hpe; simpl);
    rewrite Hexc; simpl; repeat split.
  - exists [OsPathExists "assets"; OsPathExists "assets/model.pkl";
            OpenRb "assets/model.pkl"]. split; reflexivity.
  - exists [OsPathExists "assets"; OsPathExists "assets/model.pkl";
            OpenRb "assets/model.pkl"; PickleLoad "assets/model.pkl"].
    split; reflexivity.
  - exists [OsPathExists "assets"; OsPathExists "assets/model.pkl";
            OpenRb "assets/model.pkl"; PickleLoad "assets/model.pkl";
            OsPathExists "assets/label_encoder.pkl";
            OpenRb "assets/label_encoder.pkl"]. split; reflexivity.
  - exists [OsPathExists "assets"; OsPathExists "assets/model.pkl";
            OpenRb "assets/model.pkl"; PickleLoad "assets/model.pkl";
            OsPathExists "assets/label_encoder.pkl";
            OpenRb "assets/label_encoder.pkl";
            PickleLoad "assets/label_encoder.pkl"]. split; reflexivity.
Qed.

(** X14.  When both artifacts are there and deserialize, [load_models]
    returns the two handles, model first, after checking the directory and
    then, for the model and for the encoder in this order, checking, opening
    and unpickling the file; it shows nothing and caches the pair. *)
Theorem present_artifacts_are_loaded (env : Storage Obj) (w : World)
  (handles : Obj * Obj) :
  loads_from env handles ->
  @load_models World num Obj env None w
  = (mkRun (Returned handles) w full_load_trace, Some handles).
Proof.
  intros Hl. unfold load_models, cache_resource.
  rewrite (load_models_body_of_loads_from env w handles Hl). reflexivity.
Qed.

(** X15.  When the storage raises only exceptions of the [Exception]
    hierarchy, a first call of [load_models] has two ends only: it returns
    handles that both artifacts deserialize to, or it stops the script after
    showing at least one error message and caches nothing.  No exception
    other than the stop reaches [main]. *)
Theorem load_returns_or_stops (env : Storage Obj) (w : World) :
  storage_raises_only_Exception env ->
  let r := @load_models World num Obj env None w in
  (exists handles,
     loads_from env handles /\ result (fst r) = Returned handles /\
     snd r = Some handles) \/
  (result (fst r) = Raised (PyExn StopException "") /\
   snd r = None /\
   exists msg, In (StError msg) (trace (fst r))).
Proof.
  intros Hs. cbv zeta. unfold load_models, cache_resource. cbn [fst snd].
  destruct (load_models_body_outcome env w Hs)
    as [(handles & Hl & ->) | (Hres & Hmsg & _)].
  - left. exists handles. auto.
  - right. rewrite Hres. auto.
Qed.

(** X16.  The encoder artifact is looked at only after the model artifact
    has been opened and deserialized: a run that touches
    [assets/label_encoder.pkl] in any way has loaded the model. *)
Theorem encoder_examined_after_model (env : Storage Obj) (w : World)
  (ev : event num) :
  In ev (trace (@load_models_body World num Obj env w)) ->
  touches encoder_path ev = true ->
  exists model, model_loads env model.
Proof.
  unfold model_loads, model_path, encoder_path. open_loader.
  destruct (path_exists env "assets") eqn:Ha; simpl;
    [| intros H Ht; in_cases H; subst ev; discriminate].
  destruct (path_exists env "assets/model.pkl") eqn:Hm; simpl;
    [| intros H Ht; in_cases H; subst ev; discriminate].
  destruct (open_rb env "assets/model.pkl") as [dm | e] eqn:Hom; simpl;
    [| destruct (is_Exception e); simpl;
       intros H Ht; in_cases H; subst ev; discriminate].
  destruct (pickle_load env dm) as [m | e] eqn:Hpm; simpl;
    [| destruct (is_Exception e); simpl;
       intros H Ht; in_cases H; subst ev; discriminate].
  intros _ _. exists m. repeat split; trivial. exists dm. auto.
Qed.

(** X17.  A load that failed is not remembered: after a first call that
    raised, a call made once the storage holds both artifacts reads them and
    returns the handles. *)
Theorem failed_load_is_retried (env env' : Storage Obj) (w w' : World)
  (e : exn) (handles : Obj * Obj) :
  result (fst (@load_models World num Obj env None w)) = Raised e ->
  loads_from env' handles ->
  @load_models World num Obj env'
     (snd (@load_models World num Obj env None w)) w'
  = (mkRun (Returned handles) w' full_load_trace, Some handles).
Proof.
  intros Hres Hl. unfold load_models, cache_resource in *.
  cbn [fst snd] in *. rewrite Hres.
  rewrite (load_models_body_of_loads_from env' w' handles Hl). reflexivity.
Qed.

End LoaderExtras.

(** * Properties of the script as a whole *)

Ltac open_script :=
  unfold main_body, main_gender, selectbox, lift, try_except, bind,
    st_error, emit, ret, raise; simpl.

Section ScriptExtras.
Context {World num : Type}.
Variable round : num -> Z -> num.

Lemma call_starts_with_transform (age height : Z) (gender : string)
  (model : Regressor World num) (enc : LabelEncoder World) (w : World) :
  exists rest,
    trace (predict_shoe_size round age height gender model enc w)
    = Transform [gender] :: rest.
Proof.
  predict_cases age height gender model enc w; eauto.
Qed.

Lemma main_predict_reads_no_storage (predict_button : bool) (age height : Z)
  (gender : option string)
  (model : Regressor World num) (enc : LabelEncoder World) (w : World) :
  forallb (fun ev => negb (is_storage_access ev))
    (trace (main_predict round predict_button age height gender
              model enc w)) = true.
Proof.
  unfold main_predict.
  destruct predict_button; [| reflexivity].
  destruct ((age <? 1) || (age >? 100)); [reflexivity |].
  destruct ((height <? 50) || (height >? 250)); [reflexivity |].
  destruct (truthy gender) eqn:Hg; simpl; [| reflexivity].
  destruct (truthy_Some _ Hg) as (g & -> & Hne).
  pose proof (call_reads_no_storage round age height g model enc w) as Hc.
  unfold bind.
  destruct (predict_shoe_size round age height g model enc w)
    as [[[size |] | e] w1 t1]; simpl in *; trivial;
    rewrite forallb_app, Hc; reflexivity.
Qed.

Lemma main_body_reads_no_storage (model label_encoder : PyObject World num)
  (ui : Widgets) (w : World) :
  forallb (fun ev => negb (is_storage_access ev))
    (trace (main_body round model label_encoder ui w)) = true.
Proof.
  open_script.
  destruct (attr_classes_ label_encoder) as [options | e]; simpl.
  - pose proof (main_predict_reads_no_storage (ui_button ui) (ui_age ui)
                  (ui_height ui) (nth_error options (ui_gender_choice ui))
                  (as_model model) (as_encoder label_encoder) w) as H.
    destruct (main_predict round (ui_button ui) (ui_age ui) (ui_height ui)
                (nth_error options (ui_gender_choice ui))
                (as_model model) (as_encoder label_encoder) w)
      as [o w2 t2]. exact H.
  - destruct (is_Exception e); simpl; [| reflexivity].
    pose proof (main_predict_reads_no_storage (ui_button ui) (ui_age ui)
                  (ui_height ui) (Some "Unknown")
                  (as_model model) (as_encoder label_encoder) w) as H.
    destruct (main_predict round (ui_button ui) (ui_age ui) (ui_height ui)
                (Some "Unknown")
                (as_model model) (as_encoder label_encoder) w)
      as [o w2 t2]. exact H.
Qed.

(** X18.  When reading the encoder's classes raises an exception of the
    [Exception] hierarchy, [main] shows "Error loading gender options" and
    goes on with the gender ["Unknown"]: with age and height in range, a
    press of the button sends ["Unknown"] to the encoder. *)
Theorem fallback_gender_reaches_encoder
  (model label_encoder : PyObject World num) (ui : Widgets) (w : World)
  (e : exn) :
  attr_classes_ label_encoder = Raised e ->
  is_Exception e = true ->
  ui_button ui = true ->
  1 <= ui_age ui <= 100 ->
  50 <= ui_height ui <= 250 ->
  exists rest,
    trace (main_body round model label_encoder ui w)
    = StError ("Error loading gender options: " ++ str e)
      :: Transform ["Unknown"] :: rest.
Proof.
  intros Hattr Hexc Hb Ha Hh. open_script. rewrite Hattr. simpl.
  rewrite Hexc. simpl. rewrite Hb.
  rewrite (main_predict_passes round (ui_age ui) (ui_height ui) "Unknown"
             (as_model model) (as_encoder label_encoder) Ha Hh)
    by discriminate.
  unfold bind.
  destruct (call_starts_with_transform (ui_age ui) (ui_height ui) "Unknown"
              (as_model model) (as_encoder label_encoder) w) as [rest Hr].
  destruct (predict_shoe_size round (ui_age ui) (ui_height ui) "Unknown"
              (as_model model) (as_encoder label_encoder) w)
    as [[[size |] | e'] w1 t1]; simpl in *; subst t1; simpl; eauto.
Qed.

(** X19.  With an encoder that has no classes the select box gives [None],
    and a press of the button with age and height in range is answered by
    "Please select a gender" and nothing else. *)
Theorem no_classes_no_prediction
  (model label_encoder : PyObject World num) (ui : Widgets) (w : World) :
  attr_classes_ label_encoder = Returned [] ->
  ui_button ui = true ->
  1 <= ui_age ui <= 100 ->
  50 <= ui_height ui <= 250 ->
  main_body round model label_encoder ui w
  = mkRun (Returned tt) w [StError gender_missing_msg].
Proof.
  intros Hattr Hb Ha Hh. open_script. rewrite Hattr. simpl.
  replace (nth_error (@nil string) (ui_gender_choice ui)) with (@None string)
    by (destruct (ui_gender_choice ui); reflexivity).
  rewrite Hb. unfold main_predict.
  apply range_guard_false in Ha, Hh. rewrite Ha, Hh. reflexivity.
Qed.

(** X20.  When the storage does not hold two artifacts that deserialize (and
    raises only exceptions of the [Exception] hierarchy), a run of [main]
    ends in [st.stop()] inside [load_models] with an error message: whatever
    the widgets hold, no call reaches the encoder or the model and no
    prediction is shown, and nothing is cached. *)
Theorem unloadable_storage_halts_main
  (env : Storage (PyObject World num)) (ui : Widgets) (w : World) :
  storage_raises_only_Exception env ->
  (forall handles, ~ loads_from env handles) ->
  let r := main round env None ui w in
  result (fst r) = Raised (PyExn StopException "") /\
  snd r = None /\
  (exists msg, In (StError msg) (trace (fst r))) /\
  (forall ev, In ev (trace (fst r)) ->
     is_handle_call ev = false /\ is_prediction_shown ev = false).
Proof.
  intros Hs Hno. cbv zeta. unfold main, load_models, cache_resource.
  destruct (@load_models_body_outcome World num _ env w Hs)
    as [(h & Hl & _) | (Hres & Hmsg & Hall)]; [destruct (Hno h Hl) |].
  destruct (load_models_body env w) as [o w1 t1]; simpl in *. subst o.
  simpl. repeat split; trivial;
    rewrite forallb_forall in Hall; specialize (Hall ev H);
    destruct ev; simpl in *; trivial; discriminate.
Qed.

(** X21.  Once the handles are cached, a run of [main] is the gender block
    and the button branch on the cached handles: it does not depend on the
    storage and makes no access to it. *)
Theorem rerun_reads_no_storage
  (env : Storage (PyObject World num))
  (model label_encoder : PyObject World num) (ui : Widgets) (w : World) :
  let r := main round env (Some (model, label_encoder)) ui w in
  fst r = main_body round model label_encoder ui w /\
  snd r = Some (model, label_encoder) /\
  forallb (fun ev => negb (is_storage_access ev)) (trace (fst r)) = true.
Proof.
  cbv zeta. unfold main, load_models, cache_resource. simpl.
  pose proof (main_body_reads_no_storage model label_encoder ui w) as H.
  destruct (main_body round model label_encoder ui w) as [o w2 t2].
  simpl in *. auto.
Qed.

(** X22.  A first run on a storage with both artifacts, a fitted encoder,
    an answering model, age and height in range and a non-empty class chosen
    in the select box: [main] loads the two artifacts, calls the encoder on
    the chosen class and the model on [age, height, code], shows the rounded
    prediction and no error, and leaves the handles in the cache. *)
Theorem first_run_loads_and_predicts
  (env : Storage (PyObject World num))
  (model label_encoder : PyObject World num) (ui : Widgets) (w : World)
  (classes : list string) (g : string) :
  loads_from env (model, label_encoder) ->
  attr_classes_ label_encoder = Returned classes ->
  nth_error classes (ui_gender_choice ui) = Some g ->
  g <> "" ->
  FittedEncoder (as_encoder label_encoder) ->
  AnsweringRegressor (as_model model) ->
  ui_button ui = true ->
  1 <= ui_age ui <= 100 ->
  50 <= ui_height ui <= 250 ->
  exists code prediction w2,
    main round env None ui w
    = (mkRun (Returned tt) w2
         (full_load_trace
          ++ [Transform [g]; Predict [[ui_age ui; ui_height ui; code]];
              StPrediction (round prediction 2) (ui_age ui) (ui_height ui) g;
              StInfoBox]),
       Some (model, label_encoder)).
Proof.
  intros Hl Hattr Hsel Hne Henc Hmodel Hb Ha Hh.
  assert (Hin : In g (classes_ (as_encoder label_encoder))).
  { simpl. rewrite Hattr. eapply nth_error_In. exact Hsel. }
  destruct (transform_known g w Hin) as (code & w1 & Ht).
  destruct (predict_answers (ui_age ui) (ui_height ui) code w1)
    as (y & w2 & Hp).
  exists code, y, w2.
  unfold main, load_models, cache_resource.
  rewrite (@load_models_body_of_loads_from World num _ env w _ Hl).
  open_script. rewrite Hattr. simpl. rewrite Hsel, Hb.
  rewrite (main_predict_passes round (ui_age ui) (ui_height ui) g
             (as_model model) (as_encoder label_encoder) Ha Hh Hne).
  unfold bind.
  rewrite (predict_shoe_size_success round _ _ _ _ _ _ _ _ _ _ _ _ Ht Hp).
  reflexivity.
Qed.

End ScriptExtras.

(** * The further properties on concrete runs *)

Module ScriptFixtureFacts.
Import Fixtures ScriptFixtures.

Lemma disk_raises_only_Exception (dirs : list string)
  (files : list (string * string)) :
  storage_raises_only_Exception (disk dirs files).
Proof.
  split; simpl.
  - intros path e. destruct (lookup_file path files); [discriminate |].
    intros H. injection H as <-. reflexivity.
  - intros data e. destruct (data =? "")%string; [| discriminate].
    intros H. injection H as <-. reflexivity.
Qed.

Lemma object_store_raises_only_Exception (dirs : list string)
  (files : list (string * string)) :
  storage_raises_only_Exception (object_store dirs files).
Proof.
  split; simpl.
  - intros path e. destruct (lookup_file path files); [discriminate |].
    intros H. injection H as <-. reflexivity.
  - intros data e. destruct (data =? "MODEL")%string; [discriminate |].
    destruct (data =? "ENCODER")%string; [discriminate |].
    intros H. injection H as <-. reflexivity.
Qed.

Lemma full_store_loads :
  loads_from full_store (model_object, encoder_object genders).
Proof.
  repeat split. exists "MODEL", "ENCODER". repeat split.
Qed.

(** An encoder artifact that was never fitted: the gender options cannot be
    read, ["Unknown"] is used, and the press of the button ends in "Invalid
    gender value". *)
Example unfitted_encoder_artifact :
  main_body round_fixed model_object unfitted_encoder_object
    ui_18_170_Male tt
  = mkRun (Returned tt) tt
      [StError "Error loading gender options: 'LabelEncoder' object has no attribute 'classes_'";
       Transform ["Unknown"];
       StError (invalid_gender_msg "Unknown")].
Proof. reflexivity. Qed.

End ScriptFixtureFacts.

Import ScriptFixtures ScriptFixtureFacts.

(** X1 on a model that rejects its input. *)
Lemma model_ValueError_blamed_on_gender_witness :
  predict_shoe_size round_fixed 18 170 "Male"
    (raising_model (PyExn ValueError "Input contains NaN"))
    (sklearn_encoder genders) tt
  = mkRun (Returned None) tt
      [Transform ["Male"]; Predict [[18; 170; 1]];
       StError (invalid_gender_msg "Male")].
Proof.
  apply (model_ValueError_blamed_on_gender round_fixed 18 170 "Male"
           (raising_model (PyExn ValueError "Input contains NaN"))
           (sklearn_encoder genders) tt tt tt 1 [] "Input contains NaN");
    reflexivity.
Defined.

(** X2 on a model that raises [RuntimeError]. *)
Lemma other_error_reported_with_cause_witness :
  let r := predict_shoe_size round_fixed 18 170 "Male"
             (raising_model (PyExn RuntimeError "singular matrix"))
             (sklearn_encoder genders) tt in
  result r = Returned None /\
  exists calls,
    trace r
    = (calls ++ [StError ("❌ Prediction error: "
                          ++ str (PyExn RuntimeError "singular matrix"))])%list
    /\ forallb is_handle_call calls = true.
Proof.
  apply (other_error_reported_with_cause round_fixed 18 170 "Male"
           (raising_model (PyExn RuntimeError "singular matrix"))
           (sklearn_encoder genders) tt
           (PyExn RuntimeError "singular matrix")).
  - apply (predict_raises 18 170 "Male" _ _ tt _ 1 [] tt tt); reflexivity.
  - reflexivity.
  - reflexivity.
Defined.

(** X3 on a model whose [predict] exits the interpreter. *)
Lemma non_Exception_propagates_witness :
  let r := predict_shoe_size round_fixed 18 170 "Male"
             (raising_model (PyExn SystemExit "1"))
             (sklearn_encoder genders) tt in
  result r = Raised (PyExn SystemExit "1") /\
  forallb is_handle_call (trace r) = true.
Proof.
  apply (non_Exception_propagates round_fixed 18 170 "Male"
           (raising_model (PyExn SystemExit "1"))
           (sklearn_encoder genders) tt (PyExn SystemExit "1")).
  - apply (predict_raises 18 170 "Male" _ _ tt _ 1 [] tt tt); reflexivity.
  - reflexivity.
Defined.

(** X6 on an empty select box. *)
Lemma missing_gender_rejected_witness :
  main_predict round_fixed true 18 170 None
    linear_model (sklearn_encoder genders) tt
  = mkRun (Returned tt) tt [StError gender_missing_msg].
Proof.
  apply (missing_gender_rejected round_fixed 18 170 None
           linear_model (sklearn_encoder genders) tt).
  - lia.
  - lia.
  - left. reflexivity.
Defined.

(** X7 on the prediction shown for an 18 year old, 170 cm tall male. *)
Lemma shown_prediction_is_returned_value_witness :
  true = true /\ 18 = 18 /\ 170 = 170 /\ Some "Male" = Some "Male" /\
  1 <= 18 <= 100 /\ 50 <= 170 <= 250 /\ "Male" <> "" /\
  result (predict_shoe_size round_fixed 18 170 "Male"
            linear_model (sklearn_encoder genders) tt)
  = Returned (Some 90100).
Proof.
  apply (shown_prediction_is_returned_value round_fixed true 18 170
           (Some "Male") linear_model (sklearn_encoder genders) tt
           90100 18 170 "Male").
  simpl. auto.
Defined.

(** X9 on the concrete handles. *)
Lemma button_never_crashes_witness :
  result (main_predict round_fixed true 18 170 (Some "Alien")
            linear_model (sklearn_encoder genders) tt)
  = Returned tt.
Proof.
  apply (button_never_crashes round_fixed true 18 170 (Some "Alien")
           linear_model (sklearn_encoder genders) tt).
  - apply sklearn_encoder_raises_only_Exception.
  - apply linear_model_raises_only_Exception.
Defined.

(** X10 on an 18 year old, 170 cm tall male. *)
Lemma valid_input_shows_prediction_witness :
  exists code w1 prediction w2,
    transform (sklearn_encoder genders) ["Male"] tt = (Returned [code], w1) /\
    predict linear_model [[18; 170; code]] w1 = (Returned [prediction], w2) /\
    main_predict round_fixed true 18 170 (Some "Male")
      linear_model (sklearn_encoder genders) tt
    = mkRun (Returned tt) w2
        [Transform ["Male"]; Predict [[18; 170; code]];
         StPrediction (round_fixed prediction 2) 18 170 "Male"; StInfoBox].
Proof.
  apply (valid_input_shows_prediction round_fixed 18 170 "Male"
           linear_model (sklearn_encoder genders) tt).
  - apply sklearn_encoder_fitted.
  - apply linear_model_answers.
  - lia.
  - lia.
  - simpl. auto.
  - discriminate.
Defined.

(** X11 on an empty disk. *)
Lemma missing_assets_directory_witness :
  @load_models unit Z string empty_disk None tt
  = (mkRun (Raised (PyExn StopException "")) tt
       [OsPathExists "assets"; StError assets_missing_msg], None).
Proof.
  apply (@missing_assets_directory unit Z string empty_disk tt).
  reflexivity.
Defined.

(** X12 on a disk that holds the model only. *)
Lemma missing_encoder_artifact_witness :
  @load_models unit Z string
     (disk ["assets"] [("assets/model.pkl", "MODEL")]) None tt
  = (mkRun (Raised (PyExn StopException "")) tt
       [OsPathExists "assets";
        OsPathExists model_path; OpenRb model_path; PickleLoad model_path;
        OsPathExists encoder_path; StError encoder_missing_msg], None).
Proof.
  apply (@missing_encoder_artifact unit Z string
           (disk ["assets"] [("assets/model.pkl", "MODEL")]) tt "MODEL").
  - repeat split. exists "MODEL". split; reflexivity.
  - reflexivity.
Defined.

(** X13 on an empty model file. *)
Lemma unreadable_artifact_reported_witness :
  let r := @load_models unit Z string
             (disk ["assets"]
                [("assets/model.pkl", "");
                 ("assets/label_encoder.pkl", "ENCODER")]) None tt in
  result (fst r) = Raised (PyExn StopException "") /\
  snd r = None /\
  exists accesses,
    trace (fst r)
    = (accesses
       ++ [StError ("❌ Error loading model files: "
                    ++ str (PyExn UnpicklingError "Ran out of input"));
           StError ensure_both_msg])%list /\
    forallb is_storage_access accesses = true.
Proof.
  apply (@unreadable_artifact_reported unit Z string
           (disk ["assets"]
              [("assets/model.pkl", "");
               ("assets/label_encoder.pkl", "ENCODER")]) tt
           (PyExn UnpicklingError "Ran out of input")).
  - apply (model_unpickle_raises _ _ ""); reflexivity.
  - reflexivity.
Defined.

(** X14 on a disk with both artifacts. *)
Lemma present_artifacts_are_loaded_witness :
  @load_models unit Z string full_disk None tt
  = (mkRun (Returned ("MODEL", "ENCODER")) tt full_load_trace,
     Some ("MODEL", "ENCODER")).
Proof.
  apply (@present_artifacts_are_loaded unit Z string full_disk tt
           ("MODEL", "ENCODER")).
  repeat split. exists "MODEL", "ENCODER". repeat split.
Defined.

(** X15 on a disk without the model. *)
Lemma load_returns_or_stops_witness :
  let r := @load_models unit Z string disk_without_model None tt in
  (exists handles,
     loads_from disk_without_model handles /\
     result (fst r) = Returned handles /\ snd r = Some handles) \/
  (result (fst r) = Raised (PyExn StopException "") /\
   snd r = None /\
   exists msg, In (StError msg) (trace (fst r))).
Proof.
  apply (@load_returns_or_stops unit Z string disk_without_model tt).
  apply disk_raises_only_Exception.
Defined.

(** X16 on the existence check of the encoder artifact. *)
Lemma encoder_examined_after_model_witness :
  exists model, model_loads full_disk model.
Proof.
  apply (@encoder_examined_after_model unit Z string full_disk tt
           (OsPathExists encoder_path)).
  - simpl. auto 10.
  - reflexivity.
Defined.

(** X17 on an empty disk that is filled before the second call. *)
Lemma failed_load_is_retried_witness :
  @load_models unit Z string full_disk
     (snd (@load_models unit Z string empty_disk None tt)) tt
  = (mkRun (Returned ("MODEL", "ENCODER")) tt full_load_trace,
     Some ("MODEL", "ENCODER")).
Proof.
  apply (@failed_load_is_retried unit Z string empty_disk full_disk tt tt
           (PyExn StopException "") ("MODEL", "ENCODER")).
  - reflexivity.
  - repeat split. exists "MODEL", "ENCODER". repeat split.
Defined.

(** X18 on an encoder that was never fitted. *)
Lemma fallback_gender_reaches_encoder_witness :
  exists rest,
    trace (main_body round_fixed model_object unfitted_encoder_object
             ui_18_170_Male tt)
    = StError ("Error loading gender options: "
               ++ str (PyExn AttributeError
                         "'LabelEncoder' object has no attribute 'classes_'"))
      :: Transform ["Unknown"] :: rest.
Proof.
  apply (fallback_gender_reaches_encoder round_fixed model_object
           unfitted_encoder_object ui_18_170_Male tt
           (PyExn AttributeError
              "'LabelEncoder' object has no attribute 'classes_'")).
  - reflexivity.
  - reflexivity.
  - reflexivity.
  - simpl. lia.
  - simpl. lia.
Defined.

(** X19 on an encoder fitted on no label. *)
Lemma no_classes_no_prediction_witness :
  main_body round_fixed model_object (encoder_object []) ui_18_170_Male tt
  = mkRun (Returned tt) tt [StError gender_missing_msg].
Proof.
  apply (no_classes_no_prediction round_fixed model_object
           (encoder_object []) ui_18_170_Male tt).
  - reflexivity.
  - reflexivity.
  - simpl. lia.
  - simpl. lia.
Defined.

(** X20 on an empty store. *)
Lemma unloadable_storage_halts_main_witness :
  let r := main round_fixed (object_store [] []) None ui_18_170_Male tt in
  result (fst r) = Raised (PyExn StopException "") /\
  snd r = None /\
  (exists msg, In (StError msg) (trace (fst r))) /\
  (forall ev, In ev (trace (fst r)) ->
     is_handle_call ev = false /\ is_prediction_shown ev = false).
Proof.
  apply (unloadable_storage_halts_main round_fixed (object_store [] [])
           ui_18_170_Male tt).
  - apply object_store_raises_only_Exception.
  - intros handles [H _]. discriminate H.
Defined.

(** X22 on the full store and an 18 year old, 170 cm tall male. *)
Lemma first_run_loads_and_predicts_witness :
  exists code prediction w2,
    main round_fixed full_store None ui_18_170_Male tt
    = (mkRun (Returned tt) w2
         (full_load_trace
          ++ [Transform ["Male"]; Predict [[18; 170; code]];
              StPrediction (round_fixed prediction 2) 18 170 "Male";
              StInfoBox]),
       Some (model_object, encoder_object genders)).
Proof.
  apply (first_run_loads_and_predicts round_fixed full_store
           model_object (encoder_object genders) ui_18_170_Male tt
           genders "Male").
  - apply full_store_loads.
  - reflexivity.
  - reflexivity.
  - discriminate.
  - exact (sklearn_encoder_fitted genders).
  - exact linear_model_answers.
  - reflexivity.
  - simpl. lia.
  - simpl. lia.
Defined.
